(** * Developer chat interface: the retrying API client and the chat flow

    A shallow embedding of [dev_frontend.py]: the [APIClient] class
    ([__init__], [test_connection], [send_message]) and the part of [main]
    that mutates [st.session_state].  The outside world (the HTTP server,
    the clock, the random source, the [json] library) is an explicit
    interface; every effect the client performs is written to a trace. *)

From Stdlib Require Import ZArith String Ascii List Lia Bool.
From stdpp Require Import base gmap strings list.

Set Warnings "-register-all".
Local Open Scope Z_scope.

(** ** Python values and exceptions *)

(** The values [response.json()] can return, and the values stored in the
    dictionaries the client hands back. *)
Inductive pyval :=
| PyNone
| PyBool (b : bool)
| PyInt (n : Z)
| PyFloat (literal : string)
| PyStr (s : string)
| PyList (elems : list pyval)
| PyDict (items : list (string * pyval)).

(** The two [except] clauses of [send_message] split exceptions in two
    classes: [requests.exceptions.RequestException] with its subclasses
    (connection errors, timeouts, [HTTPError]), and every other
    [Exception].  The payload is [str(e)]. *)
Inductive exn :=
| RequestException (msg : string)
| OtherException (msg : string).

Inductive outcome (A : Type) :=
| Returns (a : A)
| Raises (e : exn).
Arguments Returns {A} a.
Arguments Raises {A} e.

(** ** Constants *)

Definition DEFAULT_ERROR_MESSAGE : string :=
  "An error occurred while communicating with the API".
Definition RETRY_ATTEMPTS : nat := 3.
Definition RETRY_DELAY : Z := 1.

(** ** The outside world *)

(** What [requests.get] hands back: a response object, of which the client
    reads [status_code] and calls [json()]. *)
Record Response := mkResponse {
  status_code : Z;
  json : outcome pyval
}.

(** [requests.get] as the client meets it: it raises a
    [RequestException] (connection error, timeout, invalid URL) or it
    returns.  The few exceptions that requests lets through unwrapped from
    the libraries below it are not modelled; [test_connection] does not
    catch them, so a probe that meets one ends the run of the script. *)
Inductive reply :=
| GetRaises (msg : string)
| GetReturns (r : Response).

(** The effects of the client, oldest first. *)
Inductive event :=
| Get (url : string) (params : list (string * string)) (timeout : Z)
| Sleep (seconds : Z).

Definition World := list event.

Definition is_get (e : event) : bool :=
  match e with Get _ _ _ => true | Sleep _ => false end.
Definition is_sleep (e : event) : bool :=
  match e with Sleep _ => true | Get _ _ _ => false end.

(** Number of requests issued, and of pauses taken, in a trace. *)
Definition gets (w : World) : nat := length (List.filter is_get w).
Definition sleeps (w : World) : nat := length (List.filter is_sleep w).

(** Everything the program asks of its surroundings.  [network k] is the
    fate of the [k]-th GET of the session (counted from 0);
    [empty_dict] is the customer info [{}] and [json_dumps] is
    [json.dumps] on a customer info; [repr] gives the text of a value that
    is not a string when it is formatted. *)
Class Environment := {
  CustomerInfo : Type;
  empty_dict : CustomerInfo;
  json_dumps : CustomerInfo -> outcome string;
  network : nat -> reply;
  uuid4 : World -> string;
  strftime_now : World -> string;
  repr : pyval -> string
}.

(** ** A state-and-exception monad for the body of a [try] *)

Definition Try (A : Type) : Type := World -> outcome A * World.

Definition ret {A} (a : A) : Try A := fun w => (Returns a, w).
Definition raise {A} (e : exn) : Try A := fun w => (Raises e, w).
Definition lift {A} (o : outcome A) : Try A := fun w => (o, w).
Definition bind {A B} (m : Try A) (k : A -> Try B) : Try B :=
  fun w => match m w with
           | (Returns a, w') => k a w'
           | (Raises e, w') => (Raises e, w')
           end.

Notation "'let*' x := m 'in' k" := (bind m (fun x => k))
  (at level 10, x name, m at level 100, k at level 200).

(** ** Library operations the client calls *)

Section Library.
Context `{Environment}.

Definition requests_get (url : string) (params : list (string * string))
    (timeout : Z) : Try Response :=
  fun w =>
    let w' := w ++ [Get url params timeout] in
    match network (gets w) with
    | GetRaises msg => (Raises (RequestException msg), w')
    | GetReturns r => (Returns r, w')
    end.

Definition time_sleep (seconds : Z) (w : World) : World :=
  w ++ [Sleep seconds].
End Library.

(** [Response.raise_for_status]: an [HTTPError], which is a
    [RequestException], for a status from 400 to 599. *)
Definition raise_for_status (r : Response) : Try unit :=
  if (400 <=? status_code r) && (status_code r <? 600)
  then raise (RequestException "HTTPError")
  else ret tt.

(** [needle in haystack] for Python strings. *)
Fixpoint str_contains (needle haystack : string) : bool :=
  String.prefix needle haystack ||
  match haystack with
  | EmptyString => false
  | String _ rest => str_contains needle rest
  end.

Definition pyval_is_str (key : string) (v : pyval) : bool :=
  match v with PyStr s => String.eqb key s | _ => false end.

Fixpoint dict_get (key : string) (items : list (string * pyval)) : option pyval :=
  match items with
  | [] => None
  | (k, v) :: rest => if String.eqb key k then Some v else dict_get key rest
  end.

Definition type_name (v : pyval) : string :=
  match v with
  | PyNone => "NoneType"
  | PyBool _ => "bool"
  | PyInt _ => "int"
  | PyFloat _ => "float"
  | PyStr _ => "str"
  | PyList _ => "list"
  | PyDict _ => "dict"
  end.

(** [key in v] for a string [key]: membership of a key in a dict, of an
    element in a list, of a substring in a string; a [TypeError] on
    anything else. *)
Definition py_contains (key : string) (v : pyval) : outcome bool :=
  match v with
  | PyDict items => Returns (bool_decide (is_Some (dict_get key items)))
  | PyList elems => Returns (existsb (pyval_is_str key) elems)
  | PyStr s => Returns (str_contains key s)
  | _ => Raises (OtherException
           ("argument of type '" +:+ type_name v +:+ "' is not iterable"))
  end.

(** [v[key]] for a string [key]: only a dict can be indexed by a string. *)
Definition py_getitem (v : pyval) (key : string) : outcome pyval :=
  match v with
  | PyDict items =>
      match dict_get key items with
      | Some x => Returns x
      | None => Raises (OtherException ("'" +:+ key +:+ "'"))
      end
  | PyList _ =>
      Raises (OtherException "list indices must be integers or slices, not str")
  | PyStr _ =>
      Raises (OtherException "string indices must be integers, not 'str'")
  | _ => Raises (OtherException
           ("'" +:+ type_name v +:+ "' object is not subscriptable"))
  end.

(** [s.rstrip(c)] for a single character [c]. *)
Fixpoint rstrip (c : ascii) (s : string) : string :=
  match s with
  | EmptyString => EmptyString
  | String a rest =>
      match rstrip c rest with
      | EmptyString => if Ascii.eqb a c then EmptyString else String a EmptyString
      | kept => String a kept
      end
  end.

(** ** class APIClient *)

Record APIClient := mkAPIClient {
  base_url : string;
  sender_id : string
}.

Section Client.
Context `{Environment}.

(** [__init__]: the sender id is drawn once, here. *)
Definition APIClient_init (url : string) (w : World) : APIClient :=
  {| base_url := rstrip "/" url; sender_id := uuid4 w |}.

(** The loop of [test_connection] over the attempt numbers still to run. *)
Fixpoint test_connection_loop (self : APIClient) (attempts : list nat)
    (w : World) : bool * World :=
  match attempts with
  | [] => (false, w)
  | attempt :: rest =>
      match requests_get (base_url self +:+ "/test") [] 5 w with
      | (Returns response, w1) => (status_code response =? 200, w1)
      | (Raises _, w1) =>
          let w2 := if (attempt <? RETRY_ATTEMPTS - 1)%nat
                    then time_sleep RETRY_DELAY w1 else w1 in
          test_connection_loop self rest w2
      end
  end.

Definition test_connection (self : APIClient) (w : World) : bool * World :=
  test_connection_loop self (seq 0 RETRY_ATTEMPTS) w.

(** The body of the [try] in [send_message]. *)
Definition send_message_try (self : APIClient) (message : string)
    (customer_info : CustomerInfo) : Try (gmap string pyval) :=
  let* customer_info_json := lift (json_dumps customer_info) in
  let params := [("query", message);
                 ("senderId", sender_id self);
                 ("customer_info", customer_info_json)]%string in
  let* response := requests_get (base_url self +:+ "/response") params 30 in
  let* _ := raise_for_status response in
  let* response_data := lift (json response) in
  let* has_result := lift (py_contains "result" response_data) in
  if has_result
  then (let* result := lift (py_getitem response_data "result") in
        ret {[ "response"%string := result ]})
  else ret {[ "error"%string := PyStr "Invalid response format from API" ]}.

Fixpoint send_message_loop (self : APIClient) (message : string)
    (customer_info : CustomerInfo) (attempts : list nat) (w : World)
    : gmap string pyval * World :=
  match attempts with
  | [] => ({[ "error"%string := PyStr DEFAULT_ERROR_MESSAGE ]}, w)
  | attempt :: rest =>
      match send_message_try self message customer_info w with
      | (Returns d, w1) => (d, w1)
      | (Raises (RequestException _), w1) =>
          let w2 := if (attempt <? RETRY_ATTEMPTS - 1)%nat
                    then time_sleep RETRY_DELAY w1 else w1 in
          send_message_loop self message customer_info rest w2
      | (Raises (OtherException msg), w1) =>
          ({[ "error"%string := PyStr ("Error: " +:+ msg) ]}, w1)
      end
  end.

Definition send_message (self : APIClient) (message : string)
    (customer_info : CustomerInfo) (w : World) : gmap string pyval * World :=
  send_message_loop self message customer_info (seq 0 RETRY_ATTEMPTS) w.
End Client.

(** ** Session state and the script *)

Record ChatMessage := mkChatMessage {
  role : string;
  content : pyval;
  timestamp : string
}.

(** The widget values of one run of the script. *)
Record Widgets := mkWidgets {
  text_input_api_url : string;
  button_test : bool;
  button_clear : bool;
  chat_input : option string
}.

(** How a run of the script ends: at its last line, at [st.rerun()], or
    with an exception nobody catches. *)
Inductive Control :=
| Finished
| Rerun
| Crashed (e : exn).

(** Formatting inside an f-string: a string is inserted as it is. *)
Definition format_value `{Environment} (v : pyval) : string :=
  match v with PyStr s => s | _ => repr v end.

Section Script.
Context `{Environment}.

Record SessionState := mkSessionState {
  messages : list ChatMessage;
  api_url : string;
  api_status : bool;
  api_client : option APIClient;
  customer_info : CustomerInfo
}.

Definition set_messages (ms : list ChatMessage) (st : SessionState) :=
  {| messages := ms; api_url := api_url st; api_status := api_status st;
     api_client := api_client st; customer_info := customer_info st |}.
Definition set_api_url (u : string) (st : SessionState) :=
  {| messages := messages st; api_url := u; api_status := api_status st;
     api_client := api_client st; customer_info := customer_info st |}.
Definition set_api_status (b : bool) (st : SessionState) :=
  {| messages := messages st; api_url := api_url st; api_status := b;
     api_client := api_client st; customer_info := customer_info st |}.
Definition set_api_client (c : option APIClient) (st : SessionState) :=
  {| messages := messages st; api_url := api_url st;
     api_status := api_status st; api_client := c;
     customer_info := customer_info st |}.

(** [init_session_state]: the five keys are only ever set here, together,
    so the state is either absent (first run) or complete. *)
Definition init_session_state (stored : option SessionState) : SessionState :=
  match stored with
  | Some st => st
  | None => {| messages := []; api_url := ""; api_status := false;
               api_client := None; customer_info := empty_dict |}
  end.

(** [clear_chat_history], up to its [st.rerun()]. *)
Definition clear_chat_history (st : SessionState) : SessionState :=
  set_messages [] st.

(** The sidebar: a changed URL builds a new client and probes it; the
    Test button probes the current client. *)
Definition sidebar (ui : Widgets) (st : SessionState) (w : World)
    : SessionState * World :=
  let new_api_url := text_input_api_url ui in
  let '(st1, w1) :=
    if negb (String.eqb new_api_url (api_url st)) then
      let st' := set_api_url new_api_url st in
      if negb (String.eqb new_api_url "") then
        let client := APIClient_init new_api_url w in
        let '(ok, w') := test_connection client w in
        (set_api_status ok (set_api_client (Some client) st'), w')
      else (st', w)
    else (st, w) in
  if button_test ui then
    match api_client st1 with
    | Some client =>
        let '(ok, w2) := test_connection client w1 in
        (set_api_status ok st1, w2)
    | None => (st1, w1)
    end
  else (st1, w1).

Definition ERROR_GLYPH : string := "🚫".

(** The text shown for what [send_message] handed back. *)
Definition response_content (response : gmap string pyval) : pyval :=
  match response !! "error"%string with
  | Some e => PyStr (ERROR_GLYPH +:+ " " +:+ format_value e)
  | None => default (PyStr "No response received") (response !! "response"%string)
  end.

(** The entry appended for the user's text. *)
Definition user_message (text : string) (w : World) : ChatMessage :=
  {| role := "user"; content := PyStr text; timestamp := strftime_now w |}.

(** The chat input, lines 220 to 253: [prompt] is what [st.chat_input]
    returned in this run. *)
Definition chat_flow (prompt : option string) (st : SessionState) (w : World)
    : Control * SessionState * World :=
  match prompt with
  | None => (Finished, st, w)
  | Some text =>
      if String.eqb text "" then (Finished, st, w) else
      let st1 := set_messages (messages st ++ [user_message text w]) st in
      if api_status st1 then
        match api_client st1 with
        | None =>
            (Crashed (OtherException
               "'NoneType' object has no attribute 'send_message'"), st1, w)
        | Some client =>
            let '(response, w1) :=
              send_message client text (customer_info st1) w in
            let reply_msg := {| role := "assistant";
                                content := response_content response;
                                timestamp := strftime_now w1 |} in
            (Rerun, set_messages (messages st1 ++ [reply_msg]) st1, w1)
        end
      else (Finished, st1, w)
  end.

Definition main (ui : Widgets) (stored : option SessionState) (w : World)
    : Control * SessionState * World :=
  let st := init_session_state stored in
  let '(st1, w1) := sidebar ui st w in
  if button_clear ui then (Rerun, clear_chat_history st1, w1)
  else chat_flow (chat_input ui) st1 w1.
End Script.

(** ** Vocabulary for the statements *)

(** The request of a probe and of a send, as they appear in the trace. *)
Definition probe_get (self : APIClient) : event :=
  Get (base_url self +:+ "/test") [] 5.
Definition send_get (self : APIClient) (message customer_info_json : string) : event :=
  Get (base_url self +:+ "/response")
      [("query", message); ("senderId", sender_id self);
       ("customer_info", customer_info_json)]%string 30.

(** [n] failed attempts, each followed by its pause. *)
Definition retries (g : event) (n : nat) : World :=
  concat (replicate n [g; Sleep RETRY_DELAY]).

Definition transport_failure (rp : reply) : Prop :=
  exists msg, rp = GetRaises msg.

Definition http_error (r : Response) : bool :=
  (400 <=? status_code r) && (status_code r <? 600).

(** A server whose 4xx and 5xx answers are replaced by failed connections. *)
Definition as_transport_failure (rp : reply) : reply :=
  match rp with
  | GetReturns r => if http_error r then GetRaises "HTTPError" else rp
  | GetRaises _ => rp
  end.

Definition with_network (E : Environment) (net : nat -> reply) : Environment :=
  {| CustomerInfo := @CustomerInfo E; empty_dict := @empty_dict E;
     json_dumps := @json_dumps E; network := net; uuid4 := @uuid4 E;
     strftime_now := @strftime_now E; repr := @repr E |}.

(** What the body of the [try] makes of a reply, once the request is out. *)
Definition reply_outcome (rp : reply) : outcome (gmap string pyval) :=
  match rp with
  | GetRaises msg => Raises (RequestException msg)
  | GetReturns r =>
      if http_error r then Raises (RequestException "HTTPError") else
      match json r with
      | Raises e => Raises e
      | Returns response_data =>
          match py_contains "result" response_data with
          | Raises e => Raises e
          | Returns true =>
              match py_getitem response_data "result" with
              | Returns v => Returns {[ "response"%string := v ]}
              | Raises e => Raises e
              end
          | Returns false =>
              Returns {[ "error"%string := PyStr "Invalid response format from API" ]}
          end
      end
  end.

(** The string made of [k] copies of [c]. *)
Fixpoint repeat_char (c : ascii) (k : nat) : string :=
  match k with
  | O => EmptyString
  | S k' => String c (repeat_char c k')
  end.

(** The dictionaries [send_message] is meant to hand back. *)
Definition one_key (response : gmap string pyval) : Prop :=
  (exists v, response = {[ "response"%string := v ]}) \/
  (exists msg, response = {[ "error"%string := PyStr msg ]}).

(** ** Sample surroundings, for concrete runs *)

Definition sample_env (net : nat -> reply) : Environment :=
  {| CustomerInfo := unit; empty_dict := tt;
     json_dumps := fun _ => Returns "{}"%string;
     network := net;
     uuid4 := fun _ => "123e4567-e89b-42d3-a456-426614174000"%string;
     strftime_now := fun _ => "2024-05-01 12:00:00"%string;
     repr := fun _ => "<object>"%string |}.

Definition always_times_out : nat -> reply := fun _ => GetRaises "timed out".
Definition always_answers (r : Response) : nat -> reply := fun _ => GetReturns r.
Definition fails_then (n : nat) (r : Response) : nat -> reply :=
  fun k => if (k <? n)%nat then GetRaises "connection refused" else GetReturns r.

Definition ok_response (v : pyval) : Response :=
  {| status_code := 200; json := Returns (PyDict [("result"%string, v)]) |}.

Definition sample_client : APIClient :=
  {| base_url := "http://localhost:8000";
     sender_id := "123e4567-e89b-42d3-a456-426614174000" |}.

Definition sample_session (E : Environment) (connected : bool)
    : @SessionState E :=
  {| messages := []; api_url := "http://localhost:8000/";
     api_status := connected; api_client := Some sample_client;
     customer_info := @empty_dict E |}.

(** ** Further vocabulary and samples *)

(** A session that shows Connected holds a client. *)
Definition connected_has_client `{Environment} (st : SessionState) : Prop :=
  api_status st = true -> is_Some (api_client st).

(** An attempt that the loops retry: a failed connection or a 4xx/5xx answer. *)
Definition retried_reply (rp : reply) : Prop :=
  transport_failure rp \/ exists r, rp = GetReturns r /\ http_error r = true.

Definition is_dict (v : pyval) : bool :=
  match v with PyDict _ => true | _ => false end.

(** What [response.json()] raises on a body that is not JSON:
    [requests.exceptions.JSONDecodeError], which inherits from
    [RequestException] (requests 2.27 and later). *)
Definition JSONDecodeError (msg : string) : exn := RequestException msg.

Definition undecodable (r : Response) : Prop :=
  exists msg, json r = Raises (JSONDecodeError msg).

(** JSON values on which ["result" in v] raises a [TypeError]. *)
Definition not_iterable (v : pyval) : bool :=
  match v with
  | PyNone | PyBool _ | PyInt _ | PyFloat _ => true
  | PyStr _ | PyList _ | PyDict _ => false
  end.

(** JSON values in which ["result" in v] holds but which a string cannot
    index: a text that contains "result", an array with the element
    "result". *)
Definition holds_result_unindexed (v : pyval) : bool :=
  match v with
  | PyStr t => str_contains "result" t
  | PyList elems => existsb (pyval_is_str "result") elems
  | _ => false
  end.

(** The exception of [None.send_message]. *)
Definition missing_client_error : exn :=
  OtherException "'NoneType' object has no attribute 'send_message'".


(** Surroundings in which the customer info holds a value that
    [json.dumps] rejects. *)
Definition unserialisable_env (net : nat -> reply) : Environment :=
  {| CustomerInfo := unit; empty_dict := tt;
     json_dumps := fun _ =>
       Raises (OtherException "Object of type set is not JSON serializable");
     network := net;
     uuid4 := fun _ => "123e4567-e89b-42d3-a456-426614174000"%string;
     strftime_now := fun _ => "2024-05-01 12:00:00"%string;
     repr := fun _ => "<object>"%string |}.

(** A server that refuses the first request, answers the second with
    [bad] and every later one with [r]. *)
Definition mixed_then (bad r : Response) : nat -> reply :=
  fun k => match k with
           | O => GetRaises "connection refused"
           | S O => GetReturns bad
           | _ => GetReturns r
           end.

(** * Facts *)

(** ** Counting in traces *)

Lemma gets_app (w v : World) : gets (w ++ v) = (gets w + gets v)%nat.
Proof. unfold gets. by rewrite List.filter_app, List.length_app. Qed.

Lemma sleeps_app (w v : World) : sleeps (w ++ v) = (sleeps w + sleeps v)%nat.
Proof. unfold sleeps. by rewrite List.filter_app, List.length_app. Qed.

Lemma gets_retries (g : event) (n : nat) :
  is_get g = true -> gets (retries g n) = n.
Proof.
  intros Hg. unfold retries. induction n as [|n IH]; [done|].
  cbn [replicate concat]. rewrite gets_app, IH.
  unfold gets. cbn. rewrite Hg. cbn. lia.
Qed.

Lemma sleeps_retries (g : event) (n : nat) :
  is_get g = true -> sleeps (retries g n) = n.
Proof.
  intros Hg. unfold retries. induction n as [|n IH]; [done|].
  cbn [replicate concat]. rewrite sleeps_app, IH.
  destruct g; [|done]. done.
Qed.

Lemma retries_S (g : event) (n : nat) :
  retries g (S n) = [g; Sleep RETRY_DELAY] ++ retries g n.
Proof. done. Qed.

(** ** One attempt *)

Section Attempts.
Context `{Environment}.
Implicit Types (self : APIClient) (w : World) (message : string).

(** The body of the [try] issues exactly one request and then only
    looks at the reply. *)
Lemma send_message_try_reply self message ci s w :
  json_dumps ci = Returns s ->
  send_message_try self message ci w =
    (reply_outcome (network (gets w)), w ++ [send_get self message s]).
Proof.
  intros Hs. unfold send_message_try, bind, lift, requests_get.
  rewrite Hs. cbn. destruct (network (gets w)) as [msg|r]; cbn; [done|].
  unfold raise_for_status, http_error, raise, ret.
  destruct ((400 <=? status_code r) && (status_code r <? 600)); [done|].
  destruct (json r) as [data|e]; [|done].
  destruct (py_contains "result" data) as [[|]|e]; [|done|done].
  by destruct (py_getitem data "result").
Qed.

(** When [json.dumps] raises, nothing is sent. *)
Lemma send_message_try_dumps self message ci e w :
  json_dumps ci = Raises e ->
  send_message_try self message ci w = (Raises e, w).
Proof.
  intros He. unfold send_message_try, bind, lift. by rewrite He.
Qed.

(** One turn of the loop of [send_message], by the fate of its attempt. *)
Lemma send_loop_returns self message ci s attempt rest w d :
  json_dumps ci = Returns s ->
  reply_outcome (network (gets w)) = Returns d ->
  send_message_loop self message ci (attempt :: rest) w =
    (d, w ++ [send_get self message s]).
Proof.
  intros Hs Hd. cbn [send_message_loop].
  by rewrite (send_message_try_reply _ _ _ s), Hd.
Qed.

Lemma send_loop_other self message ci s attempt rest w msg :
  json_dumps ci = Returns s ->
  reply_outcome (network (gets w)) = Raises (OtherException msg) ->
  send_message_loop self message ci (attempt :: rest) w =
    ({[ "error"%string := PyStr ("Error: " +:+ msg) ]},
     w ++ [send_get self message s]).
Proof.
  intros Hs Hd. cbn [send_message_loop].
  by rewrite (send_message_try_reply _ _ _ s), Hd.
Qed.

Lemma send_loop_retry self message ci s attempt rest w msg :
  json_dumps ci = Returns s ->
  reply_outcome (network (gets w)) = Raises (RequestException msg) ->
  send_message_loop self message ci (attempt :: rest) w =
    send_message_loop self message ci rest
      (if (attempt <? RETRY_ATTEMPTS - 1)%nat
       then w ++ [send_get self message s; Sleep RETRY_DELAY]
       else w ++ [send_get self message s]).
Proof.
  intros Hs Hd. cbn [send_message_loop].
  rewrite (send_message_try_reply _ _ _ s), Hd by done.
  unfold time_sleep. destruct (attempt <? RETRY_ATTEMPTS - 1)%nat; [|done].
  by rewrite <- app_assoc.
Qed.

(** One turn of the loop of [test_connection]. *)
Lemma probe_loop_returns self attempt rest w r :
  network (gets w) = GetReturns r ->
  test_connection_loop self (attempt :: rest) w =
    (status_code r =? 200, w ++ [probe_get self]).
Proof.
  intros Hr. cbn [test_connection_loop]. unfold requests_get. by rewrite Hr.
Qed.

Lemma probe_loop_retry self attempt rest w :
  transport_failure (network (gets w)) ->
  test_connection_loop self (attempt :: rest) w =
    test_connection_loop self rest
      (if (attempt <? RETRY_ATTEMPTS - 1)%nat
       then w ++ [probe_get self; Sleep RETRY_DELAY]
       else w ++ [probe_get self]).
Proof.
  intros [msg Hr]. cbn [test_connection_loop]. unfold requests_get.
  rewrite Hr. unfold time_sleep.
  destruct (attempt <? RETRY_ATTEMPTS - 1)%nat; [|done].
  by rewrite <- app_assoc.
Qed.

(** ** A run of failed attempts *)

(** [n] failed attempts that are all followed by a pause: the loop goes
    on with the attempts that are left. *)
Lemma send_loop_retries self message ci s n :
  json_dumps ci = Returns s ->
  forall a rest w,
    (a + n <= RETRY_ATTEMPTS - 1)%nat ->
    (forall i, (i < n)%nat -> exists msg,
       reply_outcome (network (gets w + i)) = Raises (RequestException msg)) ->
    send_message_loop self message ci (seq a n ++ rest) w =
      send_message_loop self message ci rest
        (w ++ retries (send_get self message s) n).
Proof.
  intros Hs. induction n as [|n IH]; intros a rest w Ha Hfail.
  - cbn. unfold retries. cbn. by rewrite app_nil_r.
  - destruct (Hfail 0%nat ltac:(lia)) as [msg Hmsg].
    rewrite Nat.add_0_r in Hmsg.
    cbn [seq app]. rewrite (send_loop_retry _ _ _ s _ _ _ msg) by done.
    replace (a <? RETRY_ATTEMPTS - 1)%nat with true
      by (symmetry; apply Nat.ltb_lt; lia).
    rewrite IH.
    + by rewrite retries_S, <- app_assoc.
    + lia.
    + intros i Hi. destruct (Hfail (S i) ltac:(lia)) as [m Hm].
      exists m. rewrite gets_app. cbn.
      by replace (gets w + 1 + i)%nat with (gets w + S i)%nat by lia.
Qed.

Lemma probe_loop_retries self n :
  forall a rest w,
    (a + n <= RETRY_ATTEMPTS - 1)%nat ->
    (forall i, (i < n)%nat -> transport_failure (network (gets w + i))) ->
    test_connection_loop self (seq a n ++ rest) w =
      test_connection_loop self rest (w ++ retries (probe_get self) n).
Proof.
  induction n as [|n IH]; intros a rest w Ha Hfail.
  - cbn. unfold retries. cbn. by rewrite app_nil_r.
  - pose proof (Hfail 0%nat ltac:(lia)) as H0.
    rewrite Nat.add_0_r in H0.
    cbn [seq app]. rewrite probe_loop_retry by done.
    replace (a <? RETRY_ATTEMPTS - 1)%nat with true
      by (symmetry; apply Nat.ltb_lt; lia).
    rewrite IH.
    + by rewrite retries_S, <- app_assoc.
    + lia.
    + intros i Hi. pose proof (Hfail (S i) ltac:(lia)) as Hm.
      rewrite gets_app. cbn.
      by replace (gets w + 1 + i)%nat with (gets w + S i)%nat by lia.
Qed.
End Attempts.

(** ** Whole calls *)

Section Calls.
Context `{Environment}.
Implicit Types (self : APIClient) (w : World) (message : string).

Lemma attempts_split (n : nat) :
  (n < RETRY_ATTEMPTS)%nat ->
  seq 0 RETRY_ATTEMPTS = seq 0 n ++ n :: seq (S n) (RETRY_ATTEMPTS - S n).
Proof.
  intros Hn. replace RETRY_ATTEMPTS with (n + S (RETRY_ATTEMPTS - S n))%nat at 1 by lia.
  by rewrite seq_app.
Qed.

Lemma gets_after_retries w (g : event) (n : nat) :
  is_get g = true -> gets (w ++ retries g n) = (gets w + n)%nat.
Proof. intros Hg. by rewrite gets_app, gets_retries. Qed.

(** A probe that gets an answer on attempt [n + 1] stops there. *)
Lemma probe_after_failures self w (n : nat) r :
  (n < RETRY_ATTEMPTS)%nat ->
  (forall i, (i < n)%nat -> transport_failure (network (gets w + i))) ->
  network (gets w + n) = GetReturns r ->
  test_connection self w =
    (status_code r =? 200, w ++ retries (probe_get self) n ++ [probe_get self]).
Proof.
  intros Hn Hfail Hr. unfold test_connection.
  rewrite (attempts_split n Hn), probe_loop_retries by (done || lia).
  rewrite (probe_loop_returns _ _ _ _ r), <- app_assoc; [done|].
  by rewrite gets_after_retries.
Qed.

(** A probe whose three attempts all fail. *)
Lemma probe_exhausted self w :
  (forall i, (i < RETRY_ATTEMPTS)%nat -> transport_failure (network (gets w + i))) ->
  test_connection self w =
    (false, w ++ retries (probe_get self) 2 ++ [probe_get self]).
Proof.
  intros Hfail. unfold test_connection.
  change (seq 0 RETRY_ATTEMPTS) with (seq 0 2 ++ [2%nat]).
  rewrite probe_loop_retries.
  - rewrite probe_loop_retry.
    + cbn. by rewrite <- app_assoc.
    + rewrite gets_after_retries by done. apply Hfail. unfold RETRY_ATTEMPTS. lia.
  - done.
  - intros i Hi. apply Hfail. unfold RETRY_ATTEMPTS. lia.
Qed.

(** A send whose attempt [n + 1] is the first not to be retried. *)
Lemma send_after_failures self message ci s w (n : nat) :
  json_dumps ci = Returns s ->
  (n < RETRY_ATTEMPTS)%nat ->
  (forall i, (i < n)%nat -> exists msg,
     reply_outcome (network (gets w + i)) = Raises (RequestException msg)) ->
  let w' := w ++ retries (send_get self message s) n ++ [send_get self message s] in
  match reply_outcome (network (gets w + n)) with
  | Returns d => send_message self message ci w = (d, w')
  | Raises (OtherException msg) =>
      send_message self message ci w =
        ({[ "error"%string := PyStr ("Error: " +:+ msg) ]}, w')
  | Raises (RequestException _) => True
  end.
Proof.
  intros Hs Hn Hfail w'. subst w'.
  destruct (reply_outcome (network (gets w + n))) as [d|[msg|msg]] eqn:Hout;
    [| done |]; unfold send_message;
    rewrite (attempts_split n Hn), (send_loop_retries _ _ _ s) by (done || lia).
  - rewrite (send_loop_returns _ _ _ s _ _ _ d), <- app_assoc; [done..|].
    by rewrite gets_after_retries.
  - rewrite (send_loop_other _ _ _ s _ _ _ msg), <- app_assoc; [done..|].
    by rewrite gets_after_retries.
Qed.

(** A send whose three attempts are all retried. *)
Lemma send_exhausted self message ci s w :
  json_dumps ci = Returns s ->
  (forall i, (i < RETRY_ATTEMPTS)%nat -> exists msg,
     reply_outcome (network (gets w + i)) = Raises (RequestException msg)) ->
  send_message self message ci w =
    ({[ "error"%string := PyStr DEFAULT_ERROR_MESSAGE ]},
     w ++ retries (send_get self message s) 2 ++ [send_get self message s]).
Proof.
  intros Hs Hfail. unfold send_message.
  change (seq 0 RETRY_ATTEMPTS) with (seq 0 2 ++ [2%nat]).
  rewrite (send_loop_retries _ _ _ s).
  - destruct (Hfail 2%nat ltac:(unfold RETRY_ATTEMPTS; lia)) as [msg Hmsg].
    rewrite (send_loop_retry _ _ _ s _ _ _ msg).
    + cbn. by rewrite <- app_assoc.
    + done.
    + by rewrite gets_after_retries.
  - done.
  - done.
  - intros i Hi. apply Hfail. unfold RETRY_ATTEMPTS. lia.
Qed.

Lemma transport_failure_outcome (rp : reply) :
  transport_failure rp ->
  exists msg, reply_outcome rp = Raises (RequestException msg).
Proof. intros [msg ->]. by exists msg. Qed.

Lemma http_error_outcome (r : Response) :
  http_error r = true ->
  reply_outcome (GetReturns r) = Raises (RequestException "HTTPError").
Proof. intros Hr. cbn. by rewrite Hr. Qed.

Lemma trace_counts w (g : event) (n : nat) :
  is_get g = true ->
  gets (w ++ retries g n ++ [g]) = (gets w + n + 1)%nat /\
  sleeps (w ++ retries g n ++ [g]) = (sleeps w + n)%nat.
Proof.
  intros Hg. rewrite !gets_app, !sleeps_app, gets_retries, sleeps_retries by done.
  unfold gets, sleeps. cbn. rewrite Hg. destruct g; [|done]. cbn. lia.
Qed.
End Calls.

(** ** Retry behaviour of the two calls *)

Section Retry.
Context `{Environment}.
Implicit Types (self : APIClient) (w : World) (message : string).

(** A 200 answer that carries a JSON object with a ["result"] entry. *)
Lemma result_outcome (r : Response) items v :
  status_code r = 200 ->
  json r = Returns (PyDict items) ->
  dict_get "result" items = Some v ->
  reply_outcome (GetReturns r) = Returns {[ "response"%string := v ]}.
Proof.
  intros Hst Hjson Hv. cbn. unfold http_error. rewrite Hst, Hjson. cbn.
  rewrite Hv. rewrite bool_decide_eq_true_2 by eauto. done.
Qed.


(** C5: for every N < 3, when the first N attempts fail with transport
    failures and attempt N+1 is answered with status 200, then
    [test_connection] returns [True] and, the answer being a JSON object
    with a ["result"] entry, [send_message] returns that entry under
    ["response"]; the trace holds N+1 requests and exactly N pauses of
    [RETRY_DELAY] = 1 second (none when the first attempt succeeds). *)
Theorem success_after_transport_failures self message ci w (N : nat) r :
  (N < 3)%nat ->
  (forall i, (i < N)%nat -> transport_failure (network (gets w + i))) ->
  network (gets w + N) = GetReturns r ->
  status_code r = 200 ->
  (let '(connected, w') := test_connection self w in
     connected = true /\
     w' = w ++ retries (probe_get self) N ++ [probe_get self] /\
     gets w' = (gets w + N + 1)%nat /\ sleeps w' = (sleeps w + N)%nat) /\
  (forall s items v,
     json_dumps ci = Returns s ->
     json r = Returns (PyDict items) ->
     dict_get "result" items = Some v ->
     let '(response, w') := send_message self message ci w in
     response = {[ "response"%string := v ]} /\
     w' = w ++ retries (send_get self message s) N ++ [send_get self message s] /\
     gets w' = (gets w + N + 1)%nat /\ sleeps w' = (sleeps w + N)%nat) /\
  RETRY_DELAY = 1.
Proof.
  intros HN Hfail Hr Hst. split; [|split; [|done]].
  - rewrite (probe_after_failures self w N r) by done.
    rewrite Hst. split; [done|]. split; [done|]. by apply trace_counts.
  - intros s items v Hs Hjson Hv.
    pose proof (send_after_failures self message ci s w N Hs HN) as Hsend.
    cbn zeta in Hsend.
    rewrite Hr, (result_outcome r items v) in Hsend by done.
    rewrite Hsend.
    + split; [done|]. split; [done|]. by apply trace_counts.
    + intros i Hi. apply transport_failure_outcome. by apply Hfail.
Qed.

(** C6: for every N >= 3, when the first N attempts all fail with
    transport failures, [test_connection] returns [False] and
    [send_message] returns the error "An error occurred while
    communicating with the API", each after exactly 3 requests (with a
    pause after the first and after the second). *)
Theorem exhausted_after_three_attempts self message ci w (N : nat) :
  (3 <= N)%nat ->
  (forall i, (i < N)%nat -> transport_failure (network (gets w + i))) ->
  (let '(connected, w') := test_connection self w in
     connected = false /\
     w' = w ++ [probe_get self; Sleep 1; probe_get self; Sleep 1; probe_get self] /\
     gets w' = (gets w + 3)%nat) /\
  (forall s,
     json_dumps ci = Returns s ->
     let g := send_get self message s in
     let '(response, w') := send_message self message ci w in
     response = {[ "error"%string :=
                   PyStr "An error occurred while communicating with the API" ]} /\
     w' = w ++ [g; Sleep 1; g; Sleep 1; g] /\
     gets w' = (gets w + 3)%nat).
Proof.
  intros HN Hfail.
  assert (Hfail3 : forall i, (i < RETRY_ATTEMPTS)%nat ->
            transport_failure (network (gets w + i))).
  { intros i Hi. apply Hfail. unfold RETRY_ATTEMPTS in Hi. lia. }
  split.
  - rewrite (probe_exhausted self w Hfail3).
    split; [done|]. split; [done|].
    transitivity (gets w + 2 + 1)%nat; [|lia].
    by apply (trace_counts w (probe_get self) 2).
  - intros s Hs g. subst g.
    rewrite (send_exhausted self message ci s w Hs).
    + split; [done|]. split; [done|].
      transitivity (gets w + 2 + 1)%nat; [|lia].
      by apply (trace_counts w (send_get self message s) 2).
    + intros i Hi. apply transport_failure_outcome. by apply Hfail3.
Qed.

(** C8: on the probe attempt that receives an HTTP response (the
    attempts before it having failed in transport), [test_connection]
    returns at once, with [True] if and only if the status is 200: the
    request of that attempt is the last event of the trace, no further
    request or pause follows; in particular a non-200 response to the
    first attempt gives [False] after that single request. *)
Theorem probe_decided_by_first_response self w (N : nat) r :
  (N < 3)%nat ->
  (forall i, (i < N)%nat -> transport_failure (network (gets w + i))) ->
  network (gets w + N) = GetReturns r ->
  let '(connected, w') := test_connection self w in
  (connected = true <-> status_code r = 200) /\
  w' = w ++ retries (probe_get self) N ++ [probe_get self] /\
  gets w' = (gets w + N + 1)%nat /\ sleeps w' = (sleeps w + N)%nat /\
  (N = 0%nat -> status_code r <> 200 ->
     connected = false /\ w' = w ++ [probe_get self]).
Proof.
  intros HN Hfail Hr.
  rewrite (probe_after_failures self w N r) by done.
  split; [apply Z.eqb_eq|]. split; [done|].
  split; [by apply trace_counts|]. split; [by apply trace_counts|].
  intros -> Hne. split; [by apply Z.eqb_neq|done].
Qed.
End Retry.

(** ** Failures that are not retried, and failures that are *)

Section Failures.
Context `{Environment}.
Implicit Types (self : APIClient) (w : World) (message : string).

(** What one pass through the body of the [try] adds to the trace. *)
Lemma send_message_try_trace self message ci w o w1 :
  send_message_try self message ci w = (o, w1) ->
  (exists s, json_dumps ci = Returns s /\ w1 = w ++ [send_get self message s]) \/
  ((exists e, json_dumps ci = Raises e) /\ w1 = w).
Proof.
  intros Htry. destruct (json_dumps ci) as [s|e] eqn:Hs.
  - left. exists s. split; [done|].
    rewrite (send_message_try_reply _ _ _ s) in Htry by done. congruence.
  - right. split; [by exists e|].
    rewrite (send_message_try_dumps _ _ _ e) in Htry by done. congruence.
Qed.

(** When the body of the [try] raises, on its first pass, an exception
    that is not a [RequestException], the call ends with the effects of
    that single pass. *)
Lemma other_exception_ends_call self message ci w msg w1 :
  send_message_try self message ci w = (Raises (OtherException msg), w1) ->
  send_message self message ci w =
    ({[ "error"%string := PyStr ("Error: " +:+ msg) ]}, w1) /\
  sleeps w1 = sleeps w /\
  (gets w1 <= gets w + 1)%nat.
Proof.
  intros Htry. split.
  { unfold send_message. cbn [seq RETRY_ATTEMPTS send_message_loop].
    by rewrite Htry. }
  destruct (send_message_try_trace _ _ _ _ _ _ Htry)
    as [(s & Hs & ->)|[[e He] ->]].
  - rewrite sleeps_app, gets_app. cbn. split; lia.
  - split; [done|lia].
Qed.

(** What the body of the [try] makes of an answer whose status is not
    4xx/5xx and whose body is JSON. *)
Lemma answer_outcome (r : Response) v :
  http_error r = false ->
  json r = Returns v ->
  reply_outcome (GetReturns r) =
    match py_contains "result" v with
    | Raises e => Raises e
    | Returns true =>
        match py_getitem v "result" with
        | Returns x => Returns {[ "response"%string := x ]}
        | Raises e => Raises e
        end
    | Returns false =>
        Returns {[ "error"%string := PyStr "Invalid response format from API" ]}
    end.
Proof. intros Hst Hjson. cbn. by rewrite Hst, Hjson. Qed.

Lemma not_iterable_outcome (r : Response) v :
  http_error r = false ->
  json r = Returns v ->
  not_iterable v = true ->
  exists msg, reply_outcome (GetReturns r) = Raises (OtherException msg).
Proof.
  intros Hst Hjson Hv. rewrite (answer_outcome r v) by done.
  destruct v; try done; by eexists.
Qed.

Lemma holds_result_unindexed_outcome (r : Response) v :
  http_error r = false ->
  json r = Returns v ->
  holds_result_unindexed v = true ->
  exists msg, reply_outcome (GetReturns r) = Raises (OtherException msg).
Proof.
  intros Hst Hjson Hv. rewrite (answer_outcome r v) by done.
  destruct v; try done; cbn in Hv; cbn; rewrite Hv; by eexists.
Qed.


(** The first attempt decides when its answer is not retried. *)
Lemma first_answer_decides self message ci s w r :
  json_dumps ci = Returns s ->
  network (gets w) = GetReturns r ->
  match reply_outcome (GetReturns r) with
  | Returns d =>
      send_message self message ci w = (d, w ++ [send_get self message s])
  | Raises (OtherException msg) =>
      send_message self message ci w =
        ({[ "error"%string := PyStr ("Error: " +:+ msg) ]},
         w ++ [send_get self message s])
  | Raises (RequestException _) => True
  end.
Proof.
  intros Hs Hr.
  pose proof (send_after_failures self message ci s w 0 Hs) as Hsend.
  cbn zeta in Hsend. rewrite Nat.add_0_r, Hr in Hsend.
  apply Hsend; [unfold RETRY_ATTEMPTS; lia|]. intros i Hi. lia.
Qed.

Lemma one_request_counts w (g : event) :
  is_get g = true ->
  gets (w ++ [g]) = (gets w + 1)%nat /\ sleeps (w ++ [g]) = sleeps w.
Proof.
  intros Hg. rewrite gets_app, sleeps_app. unfold gets, sleeps. cbn.
  rewrite Hg. destruct g; [|done]. cbn. lia.
Qed.

(** C2, as the code has it: a failure of the first attempt that is not a
    [RequestException] is returned at once as "Error: " followed by the
    text of the exception, with no retry and no pause.  Such failures are:
    [json.dumps] rejecting the customer info (no request is issued); and,
    on an answer whose status is not 4xx/5xx, [response.json()] raising
    outside [RequestException], or a JSON value on which ["result" in v] or
    [v["result"]] raises a [TypeError] (exactly one request is issued).  A
    body that is not JSON is not among them: its [JSONDecodeError] is a
    [RequestException], the attempt is retried like a transport failure,
    and three such answers give the generic error after 3 requests and 2
    pauses. *)
Theorem unexpected_failure_not_retried self message ci w :
  (forall msg,
     json_dumps ci = Raises (OtherException msg) ->
     send_message self message ci w =
       ({[ "error"%string := PyStr ("Error: " +:+ msg) ]}, w)) /\
  (forall s r,
     json_dumps ci = Returns s ->
     network (gets w) = GetReturns r ->
     http_error r = false ->
     let w' := w ++ [send_get self message s] in
     gets w' = (gets w + 1)%nat /\ sleeps w' = sleeps w /\
     (forall msg,
        json r = Raises (OtherException msg) ->
        send_message self message ci w =
          ({[ "error"%string := PyStr ("Error: " +:+ msg) ]}, w')) /\
     (forall v,
        json r = Returns v ->
        not_iterable v = true \/ holds_result_unindexed v = true ->
        exists msg,
          send_message self message ci w =
            ({[ "error"%string := PyStr ("Error: " +:+ msg) ]}, w'))) /\
  (forall s,
     json_dumps ci = Returns s ->
     (forall i, (i < 3)%nat -> exists r,
        network (gets w + i) = GetReturns r /\ undecodable r) ->
     let g := send_get self message s in
     send_message self message ci w =
       ({[ "error"%string := PyStr DEFAULT_ERROR_MESSAGE ]},
        w ++ [g; Sleep 1; g; Sleep 1; g])).
Proof.
  split; [|split].
  - intros msg Hd. unfold send_message.
    cbn [seq RETRY_ATTEMPTS send_message_loop].
    by rewrite (send_message_try_dumps _ _ _ _ _ Hd).
  - intros s r Hs Hr Hst w'. subst w'.
    pose proof (first_answer_decides self message ci s w r Hs Hr) as Hsend.
    destruct (one_request_counts w (send_get self message s) eq_refl)
      as [Hgets Hsleeps].
    split; [done|]. split; [done|]. split.
    + intros msg Hjson. cbn in Hsend. by rewrite Hst, Hjson in Hsend.
    + intros v Hjson [Hv|Hv].
      * destruct (not_iterable_outcome r v Hst Hjson Hv) as [msg Hout].
        rewrite Hout in Hsend. by exists msg.
      * destruct (holds_result_unindexed_outcome r v Hst Hjson Hv)
          as [msg Hout].
        rewrite Hout in Hsend. by exists msg.
  - intros s Hs Hfail g. subst g.
    rewrite (send_exhausted self message ci s w Hs); [done|].
    intros i Hi. destruct (Hfail i Hi) as (r & -> & msg & Hjson).
    cbn. rewrite Hjson. destruct (http_error r); by eexists.
Qed.

End Failures.

(** The body of the [try] cannot tell a 4xx or 5xx answer from a failed
    connection. *)
Lemma as_transport_failure_outcome (rp : reply) :
  reply_outcome (as_transport_failure rp) = reply_outcome rp.
Proof.
  destruct rp as [msg|r]; [done|]. unfold as_transport_failure.
  destruct (http_error r) eqn:Hr; [|done]. cbn. by rewrite Hr.
Qed.

Lemma send_message_try_as_transport_failure (E : Environment) self message ci w :
  @send_message_try (with_network E (fun k => as_transport_failure (@network E k)))
    self message ci w
  = @send_message_try E self message ci w.
Proof.
  destruct (@json_dumps E ci) as [s|e] eqn:Hs.
  - rewrite (@send_message_try_reply E _ _ _ s) by done.
    rewrite (@send_message_try_reply (with_network E _) _ _ _ s) by done.
    cbn. by rewrite as_transport_failure_outcome.
  - rewrite (@send_message_try_dumps E _ _ _ e) by done.
    by rewrite (@send_message_try_dumps (with_network E _) _ _ _ e).
Qed.

(** C4: [send_message] treats an answer with a 4xx or 5xx status like a
    transport failure.  Against a server whose every such answer is
    replaced by a failed connection the call returns the same value and
    leaves the same trace; and three such answers in a row give the
    generic error after 3 requests with a pause of 1 second after the first
    and after the second, instead of returning at the first. *)
Theorem http_failure_retried_like_transport (E : Environment) self message ci w :
  @send_message (with_network E (fun k => as_transport_failure (@network E k)))
    self message ci w
  = @send_message E self message ci w /\
  (forall s,
     @json_dumps E ci = Returns s ->
     (forall i, (i < 3)%nat -> exists r,
        @network E (gets w + i) = GetReturns r /\ 400 <= status_code r < 600) ->
     let g := send_get self message s in
     @send_message E self message ci w =
       ({[ "error"%string := PyStr DEFAULT_ERROR_MESSAGE ]},
        w ++ [g; Sleep 1; g; Sleep 1; g])).
Proof.
  split.
  - unfold send_message. generalize (seq 0 RETRY_ATTEMPTS) as attempts.
    intros attempts. revert w.
    induction attempts as [|attempt rest IH]; intros w; [done|].
    cbn [send_message_loop]. rewrite send_message_try_as_transport_failure.
    destruct (@send_message_try E self message ci w) as [[d|[msg|msg]] w1];
      [done| |done].
    apply IH.
  - intros s Hs Hfail g. subst g.
    rewrite (@send_exhausted E self message ci s w Hs); [done|].
    intros i Hi. destruct (Hfail i Hi) as (r & -> & Hlo & Hhi).
    exists "HTTPError"%string. apply http_error_outcome.
    unfold http_error. apply andb_true_iff. split; [by apply Z.leb_le|by apply Z.ltb_lt].
Qed.

(** ** The base URL *)

Lemma append_nil_l (s : string) : EmptyString +:+ s = s.
Proof. reflexivity. Qed.

Lemma append_cons (a : ascii) (s t : string) :
  String a s +:+ t = String a (s +:+ t).
Proof. reflexivity. Qed.

Lemma rstrip_app (c : ascii) (s : string) :
  exists k, s = rstrip c s +:+ repeat_char c k.
Proof.
  induction s as [|a rest [k IH]]; [by exists 0%nat|].
  cbn [rstrip]. destruct (rstrip c rest) as [|b kept] eqn:Hrest.
  - rewrite append_nil_l in IH. destruct (Ascii.eqb_spec a c) as [->|Hne].
    + exists (S k). rewrite append_nil_l. cbn. by rewrite <- IH.
    + exists k. rewrite append_cons, append_nil_l. by rewrite <- IH.
  - exists k. rewrite append_cons. by rewrite <- IH.
Qed.

Lemma rstrip_no_trailing (c : ascii) (s t : string) :
  rstrip c s <> t +:+ String c EmptyString.
Proof.
  revert t. induction s as [|a rest IH]; intros t.
  - cbn. by destruct t.
  - cbn [rstrip]. destruct (rstrip c rest) as [|b kept] eqn:Hrest.
    + destruct (Ascii.eqb_spec a c) as [->|Hne].
      * by destruct t.
      * destruct t as [|a' [|? ?]]; rewrite ?append_cons, ?append_nil_l;
          congruence.
    + destruct t as [|a' t']; rewrite ?append_cons, ?append_nil_l;
        [congruence|].
      intros Heq. injection Heq as _ Heq. by apply (IH t').
Qed.

Ltac trace_ok :=
  repeat (apply List.Forall_cons; [by eauto|]); apply List.Forall_nil.

Section Urls.
Context `{Environment}.
Implicit Types (self : APIClient) (w : World) (message : string).

Lemma test_connection_loop_trace self attempts w :
  exists tr, (test_connection_loop self attempts w).2 = w ++ tr /\
    Forall (fun e => e = probe_get self \/ e = Sleep RETRY_DELAY) tr.
Proof.
  revert w. induction attempts as [|attempt rest IH]; intros w.
  - exists []. by rewrite app_nil_r.
  - cbn [test_connection_loop]. unfold requests_get.
    destruct (network (gets w)) as [msg|r].
    + unfold time_sleep. match goal with
      | |- context [test_connection_loop self rest ?w2] =>
          destruct (IH w2) as (tr & -> & Htr)
      end.
      destruct (attempt <? RETRY_ATTEMPTS - 1)%nat.
      * exists ([probe_get self; Sleep RETRY_DELAY] ++ tr).
        split; [by rewrite <- !app_assoc|]. apply Forall_app. split; [|done].
        trace_ok.
      * exists ([probe_get self] ++ tr).
        split; [by rewrite <- !app_assoc|]. apply Forall_app. split; [|done].
        trace_ok.
    + exists [probe_get self]. split; [done|]. trace_ok.
Qed.

Lemma send_message_loop_trace self message ci attempts w :
  exists tr, (send_message_loop self message ci attempts w).2 = w ++ tr /\
    Forall (fun e => (exists s, e = send_get self message s) \/
                     e = Sleep RETRY_DELAY) tr.
Proof.
  revert w. induction attempts as [|attempt rest IH]; intros w.
  - exists []. by rewrite app_nil_r.
  - cbn [send_message_loop].
    destruct (send_message_try self message ci w) as [o w1] eqn:Htry.
    assert (Hw1 : exists tr1, w1 = w ++ tr1 /\
              Forall (fun e => (exists s, e = send_get self message s) \/
                               e = Sleep RETRY_DELAY) tr1).
    { destruct (send_message_try_trace _ _ _ _ _ _ Htry)
        as [(s & _ & ->)|[_ ->]].
      - exists [send_get self message s]. split; [done|].
        trace_ok.
      - exists []. by rewrite app_nil_r. }
    destruct Hw1 as (tr1 & -> & Htr1).
    destruct o as [d|[msg|msg]]; [by exists tr1| |by exists tr1].
    unfold time_sleep. match goal with
    | |- context [send_message_loop self message ci rest ?w2] =>
        destruct (IH w2) as (tr & -> & Htr)
    end.
    destruct (attempt <? RETRY_ATTEMPTS - 1)%nat.
    + exists (tr1 ++ [Sleep RETRY_DELAY] ++ tr).
      split; [by rewrite <- !app_assoc|].
      apply Forall_app. split; [done|]. apply Forall_app. split; [|done].
      trace_ok.
    + exists (tr1 ++ tr). split; [by rewrite <- !app_assoc|].
      by apply Forall_app.
Qed.

(** C9: [APIClient(url)] keeps as base URL the URL without its trailing
    ['/'] characters: the URL is the base followed by slashes only, and
    the base does not end in ['/'].  Every request of [test_connection]
    goes to the base followed by "/test" and every request of
    [send_message] to the base followed by "/response", so no slash is
    doubled where the two are joined. *)
Theorem base_url_normalised (url : string) (w0 : World) :
  let self := APIClient_init url w0 in
  base_url self = rstrip "/" url /\
  (exists k, url = base_url self +:+ repeat_char "/" k) /\
  (forall t, base_url self <> t +:+ "/") /\
  (forall w, exists tr,
     (test_connection self w).2 = w ++ tr /\
     Forall (fun e => forall u p t, e = Get u p t ->
               u = base_url self +:+ "/test") tr) /\
  (forall w message ci, exists tr,
     (send_message self message ci w).2 = w ++ tr /\
     Forall (fun e => forall u p t, e = Get u p t ->
               u = base_url self +:+ "/response") tr).
Proof.
  intros self. split; [done|]. split; [apply rstrip_app|].
  split; [apply rstrip_no_trailing|]. split.
  - intros w.
    destruct (test_connection_loop_trace self (seq 0 RETRY_ATTEMPTS) w)
      as (tr & Htr & Hall).
    exists tr. split; [done|]. eapply Forall_impl; [exact Hall|].
    intros e [->| ->] u p t He; [|done]. by injection He as <- _ _.
  - intros w message ci.
    destruct (send_message_loop_trace self message ci (seq 0 RETRY_ATTEMPTS) w)
      as (tr & Htr & Hall).
    exists tr. split; [done|]. eapply Forall_impl; [exact Hall|].
    intros e [[s ->]| ->] u p t He; [|done]. by injection He as <- _ _.
Qed.
End Urls.

(** ** The dictionary handed back by [send_message] *)

Section Dictionary.
Context `{Environment}.
Implicit Types (self : APIClient) (w : World) (message : string).

Lemma reply_outcome_one_key (rp : reply) d :
  reply_outcome rp = Returns d -> one_key d.
Proof.
  destruct rp as [msg|r]; cbn; [done|].
  destruct (http_error r); [done|].
  destruct (json r) as [data|e]; [|done].
  destruct (py_contains "result" data) as [[|]|e]; [| |done].
  - destruct (py_getitem data "result") as [v|e]; [|done].
    intros [= <-]. left. by exists v.
  - intros [= <-]. right. by eexists.
Qed.

Lemma send_message_try_one_key self message ci w d w1 :
  send_message_try self message ci w = (Returns d, w1) -> one_key d.
Proof.
  intros Htry. destruct (json_dumps ci) as [s|e] eqn:Hs.
  - rewrite (send_message_try_reply _ _ _ s) in Htry by done.
    injection Htry as Hd _. by apply (reply_outcome_one_key _ _ Hd).
  - by rewrite (send_message_try_dumps _ _ _ e) in Htry.
Qed.

Lemma send_message_loop_one_key self message ci attempts w :
  one_key (send_message_loop self message ci attempts w).1.
Proof.
  revert w. induction attempts as [|attempt rest IH]; intros w.
  - right. by eexists.
  - cbn [send_message_loop].
    destruct (send_message_try self message ci w) as [[d|[msg|msg]] w1] eqn:Htry.
    + by apply (send_message_try_one_key _ _ _ _ _ _ Htry).
    + apply IH.
    + right. by eexists.
Qed.

Lemma one_key_lookup (d : gmap string pyval) :
  one_key d ->
  (exists v, d !! "response"%string = Some v /\ d !! "error"%string = None) \/
  (exists msg, d !! "error"%string = Some (PyStr msg) /\
               d !! "response"%string = None).
Proof.
  intros [[v ->]|[msg ->]]; [left; exists v|right; exists msg];
    by rewrite lookup_singleton_eq, lookup_singleton_ne.
Qed.

(** C10: whatever the inputs and the network, [send_message] returns a
    dictionary with exactly one key, which is either "response" or
    "error" (an error being a string), never both and never neither; so
    where the chat flow finds no "error" it finds a "response", and the
    default "No response received" of its [get] is never what it shows. *)
Theorem send_message_one_key self message ci w :
  let response := (send_message self message ci w).1 in
  one_key response /\
  (is_Some (response !! "response"%string) <-> response !! "error"%string = None) /\
  (is_Some (response !! "error"%string) <-> response !! "response"%string = None) /\
  (response !! "error"%string = None ->
     exists v, response !! "response"%string = Some v /\
               response_content response = v).
Proof.
  intros response.
  assert (Hkey : one_key response) by apply send_message_loop_one_key.
  split; [done|].
  destruct (one_key_lookup _ Hkey) as [(v & Hv & He)|(msg & He & Hv)].
  - split; [by rewrite Hv, He|]. split.
    + rewrite Hv, He. split; [by intros [? ?]|done].
    + intros _. exists v. split; [done|].
      unfold response_content. by rewrite He, Hv.
  - split.
    + rewrite Hv, He. split; [by intros [? ?]|done].
    + split; [by rewrite Hv, He|]. by rewrite He.
Qed.
End Dictionary.

(** ** The chat flow *)

Section Chat.
Context `{Environment}.
Implicit Types (st : SessionState) (w : World) (prompt : option string).

(** C1, as the code has it: a prompt that arrives while [api_status] is
    [False] starts no [send_message] call: the trace is unchanged (no
    request, no pause), no assistant message is appended and the run
    ends without [st.rerun()].  The transcript grows by the user's
    message alone (by nothing for an empty prompt), and the rest of the
    session state is as before. *)
Theorem disconnected_dispatch_sends_nothing prompt st w :
  api_status st = false ->
  let '(ctl, st', w') := chat_flow prompt st w in
  ctl = Finished /\ w' = w /\
  messages st' = messages st ++
    match prompt with
    | Some text => if String.eqb text "" then [] else [user_message text w]
    | None => []
    end /\
  Forall (fun m => role m <> "assistant"%string)
         (drop (length (messages st)) (messages st')) /\
  api_status st' = false /\ api_url st' = api_url st /\
  api_client st' = api_client st /\ customer_info st' = customer_info st.
Proof.
  intros Hst. unfold chat_flow. destruct prompt as [text|].
  - destruct (String.eqb text ""); cbn.
    + rewrite app_nil_r, drop_all. by repeat split.
    + rewrite Hst. cbn. rewrite drop_app_length.
      repeat split; try done. by apply Forall_singleton.
  - rewrite app_nil_r, drop_all. by repeat split.
Qed.

(** C7: in a dispatch (connected session, non-empty prompt) whose
    [send_message] call returns an error, the script appends the user's
    message and one assistant message whose text is the glyph, a space
    and the error message, and asks for a rerun; [api_status], [api_url],
    [api_client] and [customer_info] are as before the dispatch, and the
    trace is that of the call. *)
Theorem send_error_only_appends text st w client response w1 err :
  text <> ""%string ->
  api_status st = true ->
  api_client st = Some client ->
  send_message client text (customer_info st) w = (response, w1) ->
  response !! "error"%string = Some err ->
  exists msg st',
    err = PyStr msg /\
    chat_flow (Some text) st w = (Rerun, st', w1) /\
    messages st' = messages st ++
      [user_message text w;
       {| role := "assistant"; content := PyStr ("🚫 " +:+ msg);
          timestamp := strftime_now w1 |}] /\
    api_status st' = api_status st /\ api_url st' = api_url st /\
    api_client st' = api_client st /\ customer_info st' = customer_info st.
Proof.
  intros Htext Hst Hclient Hsend Herr.
  pose proof (send_message_loop_one_key client text (customer_info st)
                (seq 0 RETRY_ATTEMPTS) w) as Hkey.
  fold (send_message client text (customer_info st) w) in Hkey.
  rewrite Hsend in Hkey. cbn in Hkey.
  destruct (one_key_lookup _ Hkey) as [(v & _ & He)|(msg & He & _)];
    [congruence|].
  rewrite He in Herr. injection Herr as <-.
  exists msg. eexists. split; [done|].
  unfold chat_flow. apply String.eqb_neq in Htext. rewrite Htext.
  cbn [set_messages api_status api_client customer_info messages].
  rewrite Hst, Hclient, Hsend. split; [done|].
  cbn [set_messages api_status api_url api_client customer_info messages].
  unfold response_content. rewrite He.
  rewrite <- app_assoc. by repeat split.
Qed.
End Chat.

(** ** Concrete runs *)

(** The scenarios of the specification, run on the model. *)
Example probe_200_first_attempt :
  @test_connection (sample_env (always_answers (ok_response (PyStr "pong"))))
    sample_client []
  = (true, [Get "http://localhost:8000/test" [] 5]).
Proof. reflexivity. Qed.

Example send_hello_hi_there :
  let E := sample_env (always_answers (ok_response (PyStr "hi there"))) in
  map (fun m => (role m, content m))
      (messages (@chat_flow E (Some "hello"%string) (sample_session E true) []).1.2)
  = [("user"%string, PyStr "hello"); ("assistant"%string, PyStr "hi there")].
Proof. vm_compute. reflexivity. Qed.

Example send_always_times_out :
  let E := sample_env always_times_out in
  let '(ctl, st', w') := @chat_flow E (Some "hello"%string) (sample_session E true) [] in
  map (fun m => (role m, content m)) (messages st')
  = [("user"%string, PyStr "hello");
     ("assistant"%string,
      PyStr "🚫 An error occurred while communicating with the API")] /\
  api_status st' = true /\ gets w' = 3%nat /\ sleeps w' = 2%nat.
Proof. vm_compute. repeat split. Qed.

(** The error glyph is one code point, four bytes in UTF-8. *)
Example ERROR_GLYPH_bytes :
  ERROR_GLYPH = String (ascii_of_nat 240) (String (ascii_of_nat 159)
               (String (ascii_of_nat 154) (String (ascii_of_nat 171) EmptyString))).
Proof. reflexivity. Qed.

(** A body that cannot be decoded: what happens next is decided by the
    class of the exception [response.json()] raises.  Before requests 2.27
    it was a [ValueError], returned at once; since then it is a
    [JSONDecodeError], retried. *)
Example undecodable_body_other_exception :
  let r := {| status_code := 200;
              json := Raises (OtherException "Expecting value: line 1 column 1 (char 0)") |} in
  @send_message (sample_env (always_answers r)) sample_client "hello" tt []
  = ({[ "error"%string :=
        PyStr "Error: Expecting value: line 1 column 1 (char 0)" ]},
     [send_get sample_client "hello" "{}"]).
Proof. reflexivity. Qed.

Example undecodable_body_request_exception :
  let r := {| status_code := 200;
              json := Raises (RequestException "Expecting value: line 1 column 1 (char 0)") |} in
  let g := send_get sample_client "hello" "{}" in
  @send_message (sample_env (always_answers r)) sample_client "hello" tt []
  = ({[ "error"%string := PyStr DEFAULT_ERROR_MESSAGE ]},
     [g; Sleep 1; g; Sleep 1; g]).
Proof. reflexivity. Qed.

(** A 200 answer whose JSON value is not an object goes through the
    generic handler. *)
Example null_body :
  let r := {| status_code := 200; json := Returns PyNone |} in
  @send_message (sample_env (always_answers r)) sample_client "hello" tt []
  = ({[ "error"%string :=
        PyStr "Error: argument of type 'NoneType' is not iterable" ]},
     [send_get sample_client "hello" "{}"]).
Proof. reflexivity. Qed.

Example rstrip_examples :
  rstrip "/" "https://your-ngrok-url.ngrok.io///" = "https://your-ngrok-url.ngrok.io"%string /\
  rstrip "/" "http://a/b" = "http://a/b"%string /\
  rstrip "/" "///" = ""%string.
Proof. repeat split. Qed.

(** ** The statements at concrete inputs *)

(** C1 as the specification words it: a prompt that arrives while the
    session is disconnected still puts the user's message in the
    transcript. *)
Lemma disconnected_dispatch_appends_user_message :
  let E := sample_env always_times_out in
  let st := sample_session E false in
  api_status st = false /\
  map (fun m => (role m, content m))
      (messages (@chat_flow E (Some "hello"%string) st []).1.2)
    = [("user"%string, PyStr "hello")] /\
  messages (@chat_flow E (Some "hello"%string) st []).1.2 <> messages st.
Proof. repeat split. discriminate. Qed.

Lemma disconnected_dispatch_sends_nothing_witness :
  let E := sample_env always_times_out in
  let st := sample_session E false in
  api_status st = false /\
  (@chat_flow E (Some "hello"%string) st []).2 = [] /\
  (@chat_flow E (Some "hello"%string) st []).1.1 = Finished.
Proof.
  intros E st.
  pose proof (@disconnected_dispatch_sends_nothing E (Some "hello"%string) st []
                eq_refl) as Hflow.
  destruct (@chat_flow E (Some "hello"%string) st []) as [[ctl st'] w'].
  destruct Hflow as (-> & -> & _). repeat split.
Defined.

(** C2 as the specification words it: a body that is not JSON is the
    claim's example of a failure returned at once; but the call makes
    three requests with two pauses and returns the generic error, not
    "Error: ..." with the text of the exception. *)
Lemma undecodable_body_is_retried :
  let r := {| status_code := 200;
              json := Raises (JSONDecodeError
                        "Expecting value: line 1 column 1 (char 0)") |} in
  let E := sample_env (always_answers r) in
  let g := send_get sample_client "hello" "{}" in
  @send_message E sample_client "hello" tt []
    = ({[ "error"%string := PyStr DEFAULT_ERROR_MESSAGE ]},
       [g; Sleep 1; g; Sleep 1; g]) /\
  (@send_message E sample_client "hello" tt []).1 !! "error"%string
    <> Some (PyStr "Error: Expecting value: line 1 column 1 (char 0)") /\
  gets (@send_message E sample_client "hello" tt []).2 = 3%nat /\
  sleeps (@send_message E sample_client "hello" tt []).2 = 2%nat.
Proof. repeat split. discriminate. Qed.

Lemma unexpected_failure_not_retried_witness :
  let r := {| status_code := 200; json := Returns (PyInt 5) |} in
  let E := sample_env (always_answers r) in
  exists msg,
    @send_message E sample_client "hello" tt []
    = ({[ "error"%string := PyStr ("Error: " +:+ msg) ]},
       [] ++ [send_get sample_client "hello" "{}"]).
Proof.
  intros r E.
  destruct (@unexpected_failure_not_retried E sample_client "hello" tt [])
    as (_ & Hanswer & _).
  destruct (Hanswer "{}"%string r eq_refl eq_refl eq_refl)
    as (_ & _ & _ & Hvalue).
  exact (Hvalue (PyInt 5) eq_refl (or_introl eq_refl)).
Defined.



Lemma http_failure_retried_like_transport_witness :
  let r := {| status_code := 503; json := Returns PyNone |} in
  let E := sample_env (always_answers r) in
  let g := send_get sample_client "hello" "{}" in
  @send_message E sample_client "hello" tt []
  = ({[ "error"%string := PyStr DEFAULT_ERROR_MESSAGE ]},
     [g; Sleep 1; g; Sleep 1; g]).
Proof.
  intros r E g.
  apply (proj2 (@http_failure_retried_like_transport E sample_client "hello" tt [])
           "{}"%string eq_refl).
  intros i Hi. exists r. split; [reflexivity|]. cbn. lia.
Defined.

Lemma success_after_transport_failures_witness :
  let r := ok_response (PyStr "hi there") in
  let E := sample_env (fails_then 2 r) in
  let p := probe_get sample_client in
  let g := send_get sample_client "hello" "{}" in
  @test_connection E sample_client [] = (true, [p; Sleep 1; p; Sleep 1; p]) /\
  @send_message E sample_client "hello" tt []
  = ({[ "response"%string := PyStr "hi there" ]}, [g; Sleep 1; g; Sleep 1; g]).
Proof.
  intros r E p g.
  assert (Hfail : forall i, (i < 2)%nat ->
            transport_failure (@network E (gets [] + i))).
  { intros i Hi. exists "connection refused"%string.
    destruct i as [|[|i]]; [reflexivity|reflexivity|lia]. }
  destruct (@success_after_transport_failures E sample_client "hello" tt [] 2 r
              ltac:(lia) Hfail eq_refl eq_refl) as (Hprobe & Hsend & _).
  specialize (Hsend "{}"%string [("result"%string, PyStr "hi there")]
                (PyStr "hi there") eq_refl eq_refl eq_refl).
  destruct (@test_connection E sample_client []) as [connected w1].
  destruct (@send_message E sample_client "hello" tt []) as [response w2].
  destruct Hprobe as (-> & -> & _). destruct Hsend as (-> & -> & _).
  split; reflexivity.
Defined.

Lemma exhausted_after_three_attempts_witness :
  let E := sample_env always_times_out in
  let p := probe_get sample_client in
  let g := send_get sample_client "hello" "{}" in
  @test_connection E sample_client [] = (false, [p; Sleep 1; p; Sleep 1; p]) /\
  @send_message E sample_client "hello" tt []
  = ({[ "error"%string :=
        PyStr "An error occurred while communicating with the API" ]},
     [g; Sleep 1; g; Sleep 1; g]).
Proof.
  intros E p g.
  assert (Hfail : forall i, (i < 5)%nat ->
            transport_failure (@network E (gets [] + i))).
  { intros i Hi. by exists "timed out"%string. }
  destruct (@exhausted_after_three_attempts E sample_client "hello" tt [] 5
              ltac:(lia) Hfail) as (Hprobe & Hsend).
  specialize (Hsend "{}"%string eq_refl). cbn zeta in Hsend.
  destruct (@test_connection E sample_client []) as [connected w1].
  destruct (@send_message E sample_client "hello" tt []) as [response w2].
  destruct Hprobe as (-> & -> & _). destruct Hsend as (-> & -> & _).
  split; reflexivity.
Defined.

Lemma send_error_only_appends_witness :
  let E := sample_env always_times_out in
  let st := sample_session E true in
  exists st',
    (@chat_flow E (Some "hello"%string) st []).1 = (Rerun, st') /\
    map (fun m => (role m, content m)) (messages st')
      = [("user"%string, PyStr "hello");
         ("assistant"%string,
          PyStr "🚫 An error occurred while communicating with the API")] /\
    api_status st' = true.
Proof.
  intros E st.
  destruct (@send_error_only_appends E "hello"%string st [] sample_client
              (@send_message E sample_client "hello" tt []).1
              (@send_message E sample_client "hello" tt []).2
              (PyStr DEFAULT_ERROR_MESSAGE)
              ltac:(discriminate) eq_refl eq_refl eq_refl eq_refl)
    as (msg & st' & Hmsg & Hflow & Hmessages & Hstatus & _).
  injection Hmsg as <-.
  exists st'. rewrite Hflow, Hmessages, Hstatus. repeat split.
Defined.

Lemma probe_decided_by_first_response_witness :
  let r := {| status_code := 404; json := Returns PyNone |} in
  let E := sample_env (always_answers r) in
  @test_connection E sample_client [] = (false, [probe_get sample_client]).
Proof.
  intros r E.
  pose proof (@probe_decided_by_first_response E sample_client [] 0 r
                ltac:(lia) ltac:(intros i Hi; lia) eq_refl) as Hprobe.
  destruct (@test_connection E sample_client []) as [connected w1].
  destruct Hprobe as (_ & _ & _ & _ & Hfirst).
  destruct (Hfirst eq_refl ltac:(discriminate)) as [-> ->]. reflexivity.
Defined.

Lemma base_url_normalised_witness :
  let E := sample_env always_times_out in
  base_url (@APIClient_init E "http://localhost:8000//" []) = "http://localhost:8000"%string /\
  "http://localhost:8000//"%string = "http://localhost:8000" +:+ repeat_char "/" 2.
Proof.
  intros E.
  destruct (@base_url_normalised E "http://localhost:8000//" [])
    as (Hbase & _).
  rewrite Hbase. split; reflexivity.
Defined.

Lemma send_message_one_key_witness :
  let E := sample_env (always_answers (ok_response (PyStr "hi there"))) in
  one_key (@send_message E sample_client "hello" tt []).1.
Proof.
  intros E. exact (proj1 (@send_message_one_key E sample_client "hello" tt [])).
Defined.


(** * Further properties of the client *)

Section ClientTraces.
Context `{Environment}.
Implicit Types (self : APIClient) (w : World) (message : string).

(** The requests and pauses of the loop of [send_message], with their
    number bounded by the attempts it is given. *)
Lemma send_message_loop_requests self message ci attempts w :
  exists tr,
    (send_message_loop self message ci attempts w).2 = w ++ tr /\
    Forall (fun e => e = Sleep RETRY_DELAY \/
              exists s, json_dumps ci = Returns s /\ e = send_get self message s) tr /\
    (gets tr <= length attempts)%nat /\
    (sleeps tr <=
       length (List.filter (fun a => (a <? RETRY_ATTEMPTS - 1)%nat) attempts))%nat.
Proof.
  revert w. induction attempts as [|attempt rest IH]; intros w.
  - exists []. rewrite app_nil_r. repeat split; [apply List.Forall_nil|done..].
  - cbn [send_message_loop].
    destruct (send_message_try self message ci w) as [o w1] eqn:Htry.
    assert (Hw1 : exists tr1, w1 = w ++ tr1 /\
              Forall (fun e => e = Sleep RETRY_DELAY \/
                 exists s, json_dumps ci = Returns s /\
                           e = send_get self message s) tr1 /\
              (gets tr1 <= 1)%nat /\ sleeps tr1 = 0%nat).
    { destruct (send_message_try_trace _ _ _ _ _ _ Htry)
        as [(s & Hs & ->)|[_ ->]].
      - exists [send_get self message s]. repeat split; [|done..].
        apply List.Forall_cons; [eauto|apply List.Forall_nil].
      - exists []. rewrite app_nil_r. repeat split; [apply List.Forall_nil|].
        unfold gets. cbn. lia. }
    destruct Hw1 as (tr1 & -> & Htr1 & Hg1 & Hs1).
    assert (Hstop : exists tr, w ++ tr1 = w ++ tr /\
              Forall (fun e => e = Sleep RETRY_DELAY \/
                 exists s, json_dumps ci = Returns s /\
                           e = send_get self message s) tr /\
              (gets tr <= length (attempt :: rest))%nat /\
              (sleeps tr <= length (List.filter
                 (fun a => (a <? RETRY_ATTEMPTS - 1)%nat) (attempt :: rest)))%nat).
    { exists tr1. repeat split; [done|cbn [length]; lia|lia]. }
    destruct o as [d|[msg|msg]]; [exact Hstop| |exact Hstop]. clear Hstop.
    unfold time_sleep. cbn [List.filter].
    destruct (attempt <? RETRY_ATTEMPTS - 1)%nat.
    + destruct (IH ((w ++ tr1) ++ [Sleep RETRY_DELAY])) as (tr & -> & Htr & Hg & Hs).
      exists (tr1 ++ [Sleep RETRY_DELAY] ++ tr).
      split; [by rewrite <- !app_assoc|]. split.
      { apply Forall_app. split; [done|]. apply Forall_app. split; [|done].
        apply List.Forall_cons; [by left|apply List.Forall_nil]. }
      rewrite !gets_app, !sleeps_app. cbn [length].
      change (gets [Sleep RETRY_DELAY]) with 0%nat.
      change (sleeps [Sleep RETRY_DELAY]) with 1%nat. lia.
    + destruct (IH (w ++ tr1)) as (tr & -> & Htr & Hg & Hs).
      exists (tr1 ++ tr). split; [by rewrite <- !app_assoc|]. split.
      { by apply Forall_app. }
      rewrite !gets_app, !sleeps_app. cbn [length]. lia.
Qed.

(** X1: every request [send_message] issues is a GET to the base URL
    followed by "/response", with a timeout of 30 and exactly the three
    parameters query = the message, senderId = the client's sender id and
    customer_info = the text [json.dumps] made of the customer info; every
    pause lasts [RETRY_DELAY] = 1 second. *)
Theorem send_requests_carry_identity self message ci w :
  exists tr,
    (send_message self message ci w).2 = w ++ tr /\
    Forall (fun e => e = Sleep 1 \/
              exists s, json_dumps ci = Returns s /\
                e = Get (base_url self +:+ "/response")
                      [("query"%string, message);
                       ("senderId"%string, sender_id self);
                       ("customer_info"%string, s)] 30) tr.
Proof.
  destruct (send_message_loop_requests self message ci (seq 0 RETRY_ATTEMPTS) w)
    as (tr & Htr & Hall & _).
  exists tr. split; [done|]. exact Hall.
Qed.

(** X2: whatever the network does, one call of [send_message] issues at
    most 3 requests and takes at most 2 pauses. *)
Theorem send_effects_bounded self message ci w :
  let w' := (send_message self message ci w).2 in
  (gets w <= gets w' <= gets w + 3)%nat /\
  (sleeps w <= sleeps w' <= sleeps w + 2)%nat.
Proof.
  destruct (send_message_loop_requests self message ci (seq 0 RETRY_ATTEMPTS) w)
    as (tr & Htr & _ & Hg & Hs).
  cbn zeta. unfold send_message. rewrite Htr, gets_app, sleeps_app.
  cbn in Hg, Hs. lia.
Qed.

(** The three ways a probe can go. *)
Lemma probe_cases self w :
  (exists (k : nat) r,
     (k < RETRY_ATTEMPTS)%nat /\
     (forall i, (i < k)%nat -> transport_failure (network (gets w + i))) /\
     network (gets w + k) = GetReturns r /\
     test_connection self w =
       (status_code r =? 200, w ++ retries (probe_get self) k ++ [probe_get self])) \/
  ((forall i, (i < RETRY_ATTEMPTS)%nat -> transport_failure (network (gets w + i))) /\
   test_connection self w =
     (false, w ++ retries (probe_get self) 2 ++ [probe_get self])).
Proof.
  assert (Hdec : forall k, transport_failure (network (gets w + k)) \/
                           exists r, network (gets w + k) = GetReturns r).
  { intros k. destruct (network (gets w + k)) as [msg|r]; [left|right]; eauto.
    by exists msg. }
  destruct (Hdec 0%nat) as [H0|[r Hr]].
  2:{ left. exists 0%nat, r. split; [unfold RETRY_ATTEMPTS; lia|].
      split; [intros i Hi; lia|]. split; [done|].
      apply probe_after_failures; [unfold RETRY_ATTEMPTS; lia| |done].
      intros i Hi. lia. }
  destruct (Hdec 1%nat) as [H1|[r Hr]].
  2:{ assert (Hpre : forall i, (i < 1)%nat ->
                transport_failure (network (gets w + i))).
      { intros i Hi. by replace i with 0%nat by lia. }
      left. exists 1%nat, r. split; [unfold RETRY_ATTEMPTS; lia|].
      split; [done|]. split; [done|].
      apply probe_after_failures; [unfold RETRY_ATTEMPTS; lia|done|done]. }
  assert (Hpre2 : forall i, (i < 2)%nat ->
            transport_failure (network (gets w + i))).
  { intros i Hi. destruct i as [|[|i]]; [done|done|lia]. }
  destruct (Hdec 2%nat) as [H2|[r Hr]].
  2:{ left. exists 2%nat, r. split; [unfold RETRY_ATTEMPTS; lia|].
      split; [done|]. split; [done|].
      apply probe_after_failures; [unfold RETRY_ATTEMPTS; lia|done|done]. }
  right.
  assert (Hall : forall i, (i < RETRY_ATTEMPTS)%nat ->
            transport_failure (network (gets w + i))).
  { intros i Hi. unfold RETRY_ATTEMPTS in Hi.
    destruct i as [|[|[|i]]]; [done|done|done|lia]. }
  split; [done|]. by apply probe_exhausted.
Qed.

(** X3: whatever the network does, the trace of [test_connection] is
    between one and three GETs to the base URL followed by "/test" (no
    parameters, timeout 5) with a pause of 1 second between consecutive
    requests: the pauses are exactly one fewer than the requests and the
    call never ends on a pause. *)
Theorem probe_trace_alternates self w :
  exists k : nat,
    (k < 3)%nat /\
    (test_connection self w).2 =
      w ++ retries (Get (base_url self +:+ "/test") [] 5) k
        ++ [Get (base_url self +:+ "/test") [] 5] /\
    gets (test_connection self w).2 = (gets w + k + 1)%nat /\
    sleeps (test_connection self w).2 = (sleeps w + k)%nat.
Proof.
  destruct (probe_cases self w) as [(k & r & Hk & _ & _ & ->)|[_ ->]].
  - exists k. split; [done|]. split; [done|]. by apply trace_counts.
  - exists 2%nat. split; [lia|]. split; [done|].
    by apply (trace_counts w (probe_get self) 2).
Qed.

(** X4: [test_connection] returns [True] exactly when, within its three
    attempts, the first attempt that is not a transport failure is
    answered with status 200. *)
Theorem probe_true_iff self w :
  (test_connection self w).1 = true <->
  exists (k : nat) r,
    (k < 3)%nat /\
    (forall i, (i < k)%nat -> transport_failure (network (gets w + i))) /\
    network (gets w + k) = GetReturns r /\
    status_code r = 200.
Proof.
  split.
  - destruct (probe_cases self w) as [(k & r & Hk & Hpre & Hr & ->)|[_ ->]];
      [|done].
    intros Hst. exists k, r. repeat split; try done. by apply Z.eqb_eq.
  - intros (k & r & Hk & Hpre & Hr & Hst).
    rewrite (probe_after_failures self w k r) by done. by apply Z.eqb_eq.
Qed.
End ClientTraces.

(** * Further properties of [send_message] *)

Section SendOutcomes.
Context `{Environment}.
Implicit Types (self : APIClient) (w : World) (message : string).

(** X5: when [json.dumps] rejects the customer info (any exception that
    is not a [RequestException]), [send_message] returns "Error: " followed
    by the text of the exception without issuing a request or pausing. *)
Theorem unserialisable_customer_info_sends_nothing self message ci w msg :
  json_dumps ci = Raises (OtherException msg) ->
  send_message self message ci w =
    ({[ "error"%string := PyStr ("Error: " +:+ msg) ]}, w).
Proof.
  intros Hd. unfold send_message. cbn [seq RETRY_ATTEMPTS send_message_loop].
  by rewrite (send_message_try_dumps _ _ _ _ _ Hd).
Qed.

(** What the body of the [try] makes of an answer whose status is not
    4xx/5xx and whose JSON value is not an object. *)
Lemma non_dict_outcome (r : Response) v :
  http_error r = false ->
  json r = Returns v ->
  is_dict v = false ->
  (exists msg, reply_outcome (GetReturns r) = Raises (OtherException msg)) \/
  reply_outcome (GetReturns r) =
    Returns {[ "error"%string := PyStr "Invalid response format from API" ]}.
Proof.
  intros Hst Hjson Hv. cbn. rewrite Hst, Hjson.
  destruct v as [| b | n | f | s | elems | items]; try done;
    try (left; by eexists).
  - cbn. destruct (str_contains "result" s); [left; by eexists|by right].
  - cbn. destruct (existsb (pyval_is_str "result") elems);
      [left; by eexists|by right].
Qed.

(** X6: a first answer whose JSON value is not an object (null, a
    boolean, a number, a string or an array) never gives a "response",
    whatever it contains: [send_message] returns a dictionary with the
    single key "error" after that one request, without retrying. *)
Theorem non_object_body_is_an_error self message ci s w r v :
  json_dumps ci = Returns s ->
  network (gets w) = GetReturns r ->
  http_error r = false ->
  json r = Returns v ->
  is_dict v = false ->
  exists msg,
    send_message self message ci w =
      ({[ "error"%string := PyStr msg ]}, w ++ [send_get self message s]).
Proof.
  intros Hs Hr Hst Hjson Hv.
  pose proof (send_after_failures self message ci s w 0 Hs) as Hsend.
  cbn zeta in Hsend. rewrite Nat.add_0_r, Hr in Hsend.
  assert (Hpre : forall i, (i < 0)%nat -> exists m,
            reply_outcome (network (gets w + i)) = Raises (RequestException m))
    by (intros i Hi; lia).
  specialize (Hsend ltac:(unfold RETRY_ATTEMPTS; lia) Hpre).
  destruct (non_dict_outcome r v Hst Hjson Hv) as [[msg Hout]|Hout];
    rewrite Hout in Hsend; eexists; exact Hsend.
Qed.

(** An answer with any status outside 400..599 that carries a JSON object
    with a ["result"] entry. *)
Lemma result_outcome_any_status (r : Response) items v :
  http_error r = false ->
  json r = Returns (PyDict items) ->
  dict_get "result" items = Some v ->
  reply_outcome (GetReturns r) = Returns {[ "response"%string := v ]}.
Proof.
  intros Hst Hjson Hv. cbn. rewrite Hst, Hjson. cbn.
  rewrite Hv. by rewrite bool_decide_eq_true_2 by eauto.
Qed.

Lemma no_result_outcome_any_status (r : Response) items :
  http_error r = false ->
  json r = Returns (PyDict items) ->
  dict_get "result" items = None ->
  reply_outcome (GetReturns r) =
    Returns {[ "error"%string := PyStr "Invalid response format from API" ]}.
Proof.
  intros Hst Hjson Hv. cbn. rewrite Hst, Hjson. cbn.
  rewrite Hv. rewrite bool_decide_eq_false_2; [done|]. by intros [x Hx].
Qed.

(** X7: the two calls judge a status differently.  An answer whose status
    is neither 200 nor in 400..599 (201 or 202, say) makes
    [test_connection] return [False], while [send_message] accepts the same
    answer and returns its ["result"] entry. *)
Theorem probe_and_send_disagree_on_status self message ci s w r items v :
  json_dumps ci = Returns s ->
  network (gets w) = GetReturns r ->
  status_code r <> 200 ->
  ~ (400 <= status_code r < 600) ->
  json r = Returns (PyDict items) ->
  dict_get "result" items = Some v ->
  (test_connection self w).1 = false /\
  (send_message self message ci w).1 = {[ "response"%string := v ]}.
Proof.
  intros Hs Hr Hne Hrange Hjson Hv. split.
  - rewrite (probe_after_failures self w 0 r);
      [by apply Z.eqb_neq|unfold RETRY_ATTEMPTS; lia|intros i Hi; lia|].
    by rewrite Nat.add_0_r.
  - pose proof (send_after_failures self message ci s w 0 Hs) as Hsend.
    cbn zeta in Hsend. rewrite Nat.add_0_r, Hr in Hsend.
    rewrite (result_outcome_any_status r items v) in Hsend; [| |done..].
    + rewrite Hsend; [done|unfold RETRY_ATTEMPTS; lia|intros i Hi; lia].
    + unfold http_error. apply andb_false_iff.
      destruct (Z.leb_spec 400 (status_code r)); [|by left].
      right. apply Z.ltb_ge. lia.
Qed.

Lemma retried_reply_outcome (rp : reply) :
  retried_reply rp ->
  exists msg, reply_outcome rp = Raises (RequestException msg).
Proof.
  intros [Ht|(r & -> & Hr)]; [by apply transport_failure_outcome|].
  exists "HTTPError"%string. by apply http_error_outcome.
Qed.

(** X8: after N < 3 attempts that were retried (failed connections and
    4xx/5xx answers, in any mix), an answer with a JSON object ends the
    call on attempt N+1: its ["result"] entry is returned under
    "response", or "Invalid response format from API" under "error" when
    there is none; the trace holds N+1 requests and N pauses. *)
Theorem answer_after_mixed_failures self message ci s w (N : nat) r items :
  json_dumps ci = Returns s ->
  (N < 3)%nat ->
  (forall i, (i < N)%nat -> retried_reply (network (gets w + i))) ->
  network (gets w + N) = GetReturns r ->
  http_error r = false ->
  json r = Returns (PyDict items) ->
  send_message self message ci w =
    (match dict_get "result" items with
     | Some v => {[ "response"%string := v ]}
     | None => {[ "error"%string := PyStr "Invalid response format from API" ]}
     end,
     w ++ retries (send_get self message s) N ++ [send_get self message s]).
Proof.
  intros Hs HN Hpre Hr Hst Hjson.
  pose proof (send_after_failures self message ci s w N Hs HN) as Hsend.
  cbn zeta in Hsend. rewrite Hr in Hsend.
  assert (Hpre' : forall i, (i < N)%nat -> exists m,
            reply_outcome (network (gets w + i)) = Raises (RequestException m)).
  { intros i Hi. apply retried_reply_outcome. by apply Hpre. }
  specialize (Hsend Hpre').
  destruct (dict_get "result" items) as [v|] eqn:Hv.
  - by rewrite (result_outcome_any_status r items v) in Hsend.
  - by rewrite (no_result_outcome_any_status r items) in Hsend.
Qed.

(** Where a "response" can come from. *)
Lemma reply_outcome_response (rp : reply) d v :
  reply_outcome rp = Returns d ->
  d !! "response"%string = Some v ->
  exists r items,
    rp = GetReturns r /\ http_error r = false /\
    json r = Returns (PyDict items) /\ dict_get "result" items = Some v.
Proof.
  destruct rp as [msg|r]; cbn; [done|].
  destruct (http_error r) eqn:Hst; [done|].
  destruct (json r) as [data|e] eqn:Hjson; [|done].
  destruct (py_contains "result" data) as [[|]|e] eqn:Hin; [| |done].
  - destruct (py_getitem data "result") as [x|e] eqn:Hget; [|done].
    intros [= <-]. rewrite lookup_singleton_eq. intros [= ->].
    destruct data as [| b | n | f | t | elems | items]; try done.
    exists r, items. repeat split; try done.
    cbn in Hget. by destruct (dict_get "result" items) as [y|]; inversion Hget.
  - intros [= <-]. by rewrite lookup_singleton_ne.
Qed.

Lemma send_message_loop_response self message ci attempts w v :
  (send_message_loop self message ci attempts w).1 !! "response"%string = Some v ->
  exists (k : nat) r items,
    (k < length attempts)%nat /\
    network (gets w + k) = GetReturns r /\ http_error r = false /\
    json r = Returns (PyDict items) /\ dict_get "result" items = Some v.
Proof.
  revert w. induction attempts as [|attempt rest IH]; intros w.
  - cbn. by rewrite lookup_singleton_ne.
  - cbn [send_message_loop]. destruct (json_dumps ci) as [s|e] eqn:Hs.
    + rewrite (send_message_try_reply _ _ _ s) by done.
      destruct (reply_outcome (network (gets w))) as [d|[msg|msg]] eqn:Hout.
      * cbn. intros Hv.
        destruct (reply_outcome_response _ _ _ Hout Hv)
          as (r & items & Hr & Hst & Hjson & Hget).
        exists 0%nat, r, items. rewrite Nat.add_0_r. cbn [length].
        repeat split; try done. lia.
      * intros Hv. apply IH in Hv as (k & r & items & Hk & Hr & Hrest).
        exists (S k), r, items. cbn [length]. split; [lia|]. split; [|done].
        rewrite <- Hr. f_equal. unfold time_sleep.
        destruct (attempt <? RETRY_ATTEMPTS - 1)%nat;
          rewrite !gets_app; cbn; lia.
      * cbn. by rewrite lookup_singleton_ne.
    + rewrite (send_message_try_dumps _ _ _ e) by done.
      destruct e as [msg|msg].
      * intros Hv. apply IH in Hv as (k & r & items & Hk & Hr & Hrest).
        exists k, r, items. cbn [length]. split; [lia|]. split; [|done].
        rewrite <- Hr. f_equal. unfold time_sleep.
        destruct (attempt <? RETRY_ATTEMPTS - 1)%nat;
          rewrite ?gets_app; cbn; lia.
      * cbn. by rewrite lookup_singleton_ne.
Qed.

(** X9: [send_message] never makes up an answer: a value returned under
    "response" is the ["result"] entry of the JSON object of one of the (at
    most three) answers of this call, and that answer's status was not in
    400..599. *)
Theorem response_comes_from_server self message ci w v :
  (send_message self message ci w).1 !! "response"%string = Some v ->
  exists (k : nat) r items,
    (k < 3)%nat /\
    network (gets w + k) = GetReturns r /\
    ~ (400 <= status_code r < 600) /\
    json r = Returns (PyDict items) /\
    dict_get "result" items = Some v.
Proof.
  intros Hv. apply send_message_loop_response in Hv
    as (k & r & items & Hk & Hr & Hst & Hjson & Hget).
  exists k, r, items. repeat split; try done.
  unfold http_error in Hst. apply andb_false_iff in Hst as [Hlo|Hhi].
  - apply Z.leb_gt in Hlo. lia.
  - apply Z.ltb_ge in Hhi. lia.
Qed.
End SendOutcomes.

(** * Further properties of the script *)

Lemma rstrip_repeat_char (c : ascii) (k : nat) :
  rstrip c (repeat_char c k) = EmptyString.
Proof.
  induction k as [|k IH]; [done|].
  cbn [repeat_char rstrip]. rewrite IH. by rewrite Ascii.eqb_refl.
Qed.

Lemma rstrip_trailing (c : ascii) (s : string) (k : nat) :
  rstrip c (s +:+ repeat_char c k) = rstrip c s.
Proof.
  induction s as [|a rest IH].
  - rewrite append_nil_l. apply rstrip_repeat_char.
  - rewrite append_cons. cbn [rstrip]. by rewrite IH.
Qed.

Lemma rstrip_idempotent (c : ascii) (s : string) :
  rstrip c (rstrip c s) = rstrip c s.
Proof.
  induction s as [|a rest IH]; [done|].
  cbn [rstrip]. destruct (rstrip c rest) as [|b kept] eqn:Hrest.
  - destruct (Ascii.eqb_spec a c) as [->|Hne]; [done|].
    cbn [rstrip]. by destruct (Ascii.eqb_spec a c).
  - change (rstrip c (String a (String b kept))) with
      (match rstrip c (String b kept) with
       | EmptyString => if Ascii.eqb a c then EmptyString else String a EmptyString
       | kept' => String a kept'
       end).
    by rewrite IH.
Qed.

Ltac state_fields :=
  unfold set_api_status, set_api_client, set_api_url, set_messages;
  cbn [api_url api_client api_status messages customer_info fst snd].

Section ScriptFacts.
Context `{Environment}.
Implicit Types (st : SessionState) (w : World) (prompt : option string).

(** X10: URLs that differ only in trailing ['/'] characters give clients
    with the same base URL, and building a client from a base URL gives
    that base URL back. *)
Theorem trailing_slashes_do_not_matter (url : string) (k : nat) (w1 w2 : World) :
  base_url (APIClient_init (url +:+ repeat_char "/" k) w1)
    = base_url (APIClient_init url w2) /\
  base_url (APIClient_init (base_url (APIClient_init url w1)) w2)
    = base_url (APIClient_init url w1).
Proof.
  split; cbn [APIClient_init base_url].
  - apply rstrip_trailing.
  - apply rstrip_idempotent.
Qed.

Lemma chat_flow_frame prompt st w :
  let '(ctl, st', w') := chat_flow prompt st w in
  api_status st' = api_status st /\ api_client st' = api_client st /\
  api_url st' = api_url st /\ customer_info st' = customer_info st.
Proof.
  unfold chat_flow. destruct prompt as [text|]; [|by repeat split].
  destruct (String.eqb text ""); [cbn; by repeat split|].
  cbn [set_messages api_status api_client customer_info messages].
  destruct (api_status st) eqn:Hst; [|cbn; by rewrite Hst].
  destruct (api_client st) as [client|] eqn:Hclient;
    [|cbn; by rewrite Hst, Hclient].
  destruct (send_message client text (customer_info st) w).
  cbn. by rewrite Hst, Hclient.
Qed.

(** X11: the chat flow only ever appends to the transcript, and touches
    nothing else: whatever the prompt, the state and the network, it
    leaves [api_status], [api_url], [api_client] and [customer_info] as they
    were and extends [messages] by nothing, by the user's message, or by
    the user's message followed by one assistant message; it asks for a
    rerun exactly in the last case, and otherwise leaves the trace alone. *)
Theorem chat_flow_appends_only prompt st w :
  let '(ctl, st', w') := chat_flow prompt st w in
  api_status st' = api_status st /\ api_url st' = api_url st /\
  api_client st' = api_client st /\ customer_info st' = customer_info st /\
  exists added,
    messages st' = messages st ++ added /\
    (map role added = [] \/ map role added = ["user"%string] \/
     map role added = ["user"%string; "assistant"%string]) /\
    (ctl = Rerun <-> length added = 2%nat) /\
    (ctl <> Rerun -> w' = w).
Proof.
  pose proof (chat_flow_frame prompt st w) as Hframe.
  assert (Hadd : let '(ctl, st', w') := chat_flow prompt st w in
            exists added,
              messages st' = messages st ++ added /\
              (map role added = [] \/ map role added = ["user"%string] \/
               map role added = ["user"%string; "assistant"%string]) /\
              (ctl = Rerun <-> length added = 2%nat) /\
              (ctl <> Rerun -> w' = w)).
  { unfold chat_flow. destruct prompt as [text|].
    2:{ exists []. rewrite app_nil_r. split_and!; [done|by left|done|done]. }
    destruct (String.eqb text "").
    { exists []. rewrite app_nil_r. split_and!; [done|by left|done|done]. }
    cbn [set_messages api_status api_client customer_info messages].
    destruct (api_status st).
    2:{ exists [user_message text w].
        split_and!; [done|right; by left|done|done]. }
    destruct (api_client st) as [client|].
    2:{ exists [user_message text w].
        split_and!; [done|right; by left|done|done]. }
    destruct (send_message client text (customer_info st) w) as [response w1].
    exists [user_message text w;
            {| role := "assistant"; content := response_content response;
               timestamp := strftime_now w1 |}].
    cbn [set_messages messages]. rewrite <- app_assoc.
    split_and!; [done|right; by right|done|]. intros Hne. by destruct Hne. }
  destruct (chat_flow prompt st w) as [[ctl st'] w'].
  destruct Hframe as (Hst & Hclient & Hurl & Hci). by split_and!.
Qed.

(** X12: in a dispatch (connected session, non-empty prompt) whose
    [send_message] call returns a "response", the script appends the
    user's message and one assistant message whose content is the returned
    value itself, with no prefix, and asks for a rerun. *)
Theorem send_success_appends_reply text st w client response w1 v :
  text <> ""%string ->
  api_status st = true ->
  api_client st = Some client ->
  send_message client text (customer_info st) w = (response, w1) ->
  response !! "response"%string = Some v ->
  exists st',
    chat_flow (Some text) st w = (Rerun, st', w1) /\
    messages st' = messages st ++
      [user_message text w;
       {| role := "assistant"; content := v; timestamp := strftime_now w1 |}].
Proof.
  intros Htext Hst Hclient Hsend Hv.
  pose proof (send_message_loop_one_key client text (customer_info st)
                (seq 0 RETRY_ATTEMPTS) w) as Hkey.
  fold (send_message client text (customer_info st) w) in Hkey.
  rewrite Hsend in Hkey. cbn in Hkey.
  destruct (one_key_lookup _ Hkey) as [(v' & Hv' & He)|(msg & _ & Hnone)];
    [|congruence].
  eexists. unfold chat_flow. apply String.eqb_neq in Htext. rewrite Htext.
  cbn [set_messages api_status api_client customer_info messages].
  rewrite Hst, Hclient, Hsend. split; [done|].
  cbn [set_messages messages]. unfold response_content. rewrite He, Hv. cbn.
  by rewrite <- app_assoc.
Qed.

(** X13: the sidebar probes nothing when the URL field is unchanged or
    empty and the Test button is not pressed or there is no client: the
    trace is untouched, [api_url] takes the value of the field, and
    [api_status], [api_client], [messages] and [customer_info] stay.  In
    particular emptying the URL field keeps the old client and a status
    that may still read Connected. *)
Theorem sidebar_without_probe (ui : Widgets) st w :
  text_input_api_url ui = api_url st \/ text_input_api_url ui = ""%string ->
  button_test ui = false \/ api_client st = None ->
  let '(st', w') := sidebar ui st w in
  w' = w /\ api_url st' = text_input_api_url ui /\
  api_status st' = api_status st /\ api_client st' = api_client st /\
  messages st' = messages st /\ customer_info st' = customer_info st.
Proof.
  intros Hurl Htest. unfold sidebar.
  destruct (negb (String.eqb (text_input_api_url ui) (api_url st))) eqn:Hchg.
  - assert (Hempty : text_input_api_url ui = ""%string).
    { destruct Hurl as [Heq|Hempty]; [|done].
      rewrite Heq, String.eqb_refl in Hchg. done. }
    rewrite Hempty. cbn [String.eqb negb].
    destruct Htest as [-> | Hnone].
    + by repeat split.
    + destruct (button_test ui); cbn [set_api_url api_client]; rewrite ?Hnone;
        by repeat split.
  - apply negb_false_iff, String.eqb_eq in Hchg.
    destruct Htest as [-> | Hnone].
    + by repeat split.
    + destruct (button_test ui); rewrite ?Hnone; by repeat split.
Qed.

(** The status a probe returns, by what the network does: an answer on
    the first attempt that is not a transport failure, or three transport
    failures. *)
Lemma probe_result self w (connected : bool) w' :
  test_connection self w = (connected, w') ->
  (forall (k : nat) r,
     (k < 3)%nat ->
     (forall i, (i < k)%nat -> transport_failure (network (gets w + i))) ->
     network (gets w + k) = GetReturns r ->
     connected = (status_code r =? 200)) /\
  ((forall i, (i < 3)%nat -> transport_failure (network (gets w + i))) ->
   connected = false).
Proof.
  intros Hprobe. split.
  - intros k r Hk Hpre Hr.
    rewrite (probe_after_failures self w k r) in Hprobe by done. congruence.
  - intros Hall. rewrite (probe_exhausted self w) in Hprobe by done.
    congruence.
Qed.

(** X14: after the URL field is changed to a non-empty value (Test not
    pressed), the session holds the new URL and a new client for the
    stripped URL, the transcript is untouched, and the status follows the
    probe of the new client: when an attempt is answered after transport
    failures only, the session shows Connected exactly if that answer has
    status 200; when all three attempts fail in transport it shows
    Disconnected.  The status held before plays no part. *)
Theorem url_change_probes_new_client (ui : Widgets) st w :
  text_input_api_url ui <> api_url st ->
  text_input_api_url ui <> ""%string ->
  button_test ui = false ->
  let '(st', w') := sidebar ui st w in
  api_url st' = text_input_api_url ui /\
  api_client st' = Some {| base_url := rstrip "/" (text_input_api_url ui);
                           sender_id := uuid4 w |} /\
  messages st' = messages st /\
  (forall (k : nat) r,
     (k < 3)%nat ->
     (forall i, (i < k)%nat -> transport_failure (network (gets w + i))) ->
     network (gets w + k) = GetReturns r ->
     (api_status st' = true <-> status_code r = 200)) /\
  ((forall i, (i < 3)%nat -> transport_failure (network (gets w + i))) ->
   api_status st' = false).
Proof.
  intros Hchg Hne Htest. unfold sidebar.
  apply String.eqb_neq in Hchg, Hne. rewrite Hchg, Hne, Htest. cbn [negb].
  destruct (test_connection (APIClient_init (text_input_api_url ui) w) w)
    as [ok w'] eqn:Hprobe.
  destruct (probe_result _ _ _ _ Hprobe) as [Hanswer Hfail].
  state_fields. split; [done|]. split; [done|]. split; [done|]. split.
  - intros k r Hk Hpre Hr. rewrite (Hanswer k r Hk Hpre Hr).
    apply Z.eqb_eq.
  - exact Hfail.
Qed.

(** X15: pressing Test with a client at hand and the URL field left alone
    sets the status to the outcome of the probe of that client, whatever
    the status was: when an attempt is answered after transport failures
    only, the session shows Connected exactly if that answer has status
    200; when all three attempts fail in transport it shows Disconnected.
    The client, the URL and the transcript stay. *)
Theorem test_button_sets_status (ui : Widgets) st w client :
  button_test ui = true ->
  api_client st = Some client ->
  text_input_api_url ui = api_url st ->
  let '(st', w') := sidebar ui st w in
  api_client st' = Some client /\ api_url st' = api_url st /\
  messages st' = messages st /\
  (forall (k : nat) r,
     (k < 3)%nat ->
     (forall i, (i < k)%nat -> transport_failure (network (gets w + i))) ->
     network (gets w + k) = GetReturns r ->
     (api_status st' = true <-> status_code r = 200)) /\
  ((forall i, (i < 3)%nat -> transport_failure (network (gets w + i))) ->
   api_status st' = false).
Proof.
  intros Htest Hclient Hurl. unfold sidebar.
  rewrite Hurl, String.eqb_refl. cbn [negb]. rewrite Htest, Hclient.
  destruct (test_connection client w) as [ok w'] eqn:Hprobe.
  destruct (probe_result _ _ _ _ Hprobe) as [Hanswer Hfail].
  state_fields. split; [done|]. split; [done|]. split; [done|]. split.
  - intros k r Hk Hpre Hr. rewrite (Hanswer k r Hk Hpre Hr).
    apply Z.eqb_eq.
  - exact Hfail.
Qed.

Lemma sidebar_keeps_invariant (ui : Widgets) st w :
  connected_has_client st -> connected_has_client (sidebar ui st w).1.
Proof.
  unfold connected_has_client, sidebar. intros Hinv.
  destruct (negb (String.eqb (text_input_api_url ui) (api_url st))).
  - destruct (negb (String.eqb (text_input_api_url ui) "")).
    + destruct (test_connection (APIClient_init (text_input_api_url ui) w) w)
        as [ok w'].
      state_fields. destruct (button_test ui).
      * destruct (test_connection _ w'). state_fields. by eauto.
      * state_fields. by eauto.
    + state_fields. destruct (button_test ui); [|by state_fields].
      destruct (api_client st) as [client|] eqn:Hclient.
      * destruct (test_connection client w). state_fields. by eauto.
      * state_fields. rewrite ?Hclient. exact Hinv.
  - state_fields. destruct (button_test ui); [|by state_fields].
    destruct (api_client st) as [client|] eqn:Hclient.
    + destruct (test_connection client w). state_fields. by eauto.
    + state_fields. rewrite ?Hclient. exact Hinv.
Qed.

Lemma sidebar_keeps_messages (ui : Widgets) st w :
  messages (sidebar ui st w).1 = messages st.
Proof.
  unfold sidebar.
  destruct (negb (String.eqb (text_input_api_url ui) (api_url st))).
  - destruct (negb (String.eqb (text_input_api_url ui) "")).
    + destruct (test_connection (APIClient_init (text_input_api_url ui) w) w)
        as [ok w'].
      state_fields. destruct (button_test ui); [|done].
      by destruct (test_connection _ w').
    + state_fields. destruct (button_test ui); [|done].
      destruct (api_client st) as [client|]; [|done].
      by destruct (test_connection client w).
  - state_fields. destruct (button_test ui); [|done].
    destruct (api_client st) as [client|]; [|done].
    by destruct (test_connection client w).
Qed.

(** X16: a session that shows Connected always holds a client, so
    [send_message] is never called on a missing client: the first run
    starts in such a state, every run of [main] that starts in one ends in
    one, and no such run fails on [api_client.send_message]. *)
Theorem connected_session_holds_client (ui : Widgets)
    (stored : option SessionState) w :
  (forall st, stored = Some st -> connected_has_client st) ->
  let '(ctl, st', w') := main ui stored w in
  connected_has_client st' /\ ctl <> Crashed missing_client_error.
Proof.
  intros Hstored. unfold main.
  assert (Hinit : connected_has_client (init_session_state stored)).
  { destruct stored as [st|]; [by apply Hstored|]. by intros Hst. }
  pose proof (sidebar_keeps_invariant ui _ w Hinit) as Hside.
  destruct (sidebar ui (init_session_state stored) w) as [st1 w1].
  cbn [fst] in Hside. destruct (button_clear ui); [done|].
  unfold chat_flow. destruct (chat_input ui) as [text|]; [|done].
  destruct (String.eqb text ""); [done|].
  cbn [set_messages api_status api_client customer_info messages].
  destruct (api_status st1) eqn:Hst; [|split; [exact Hside|done]].
  destruct (Hside Hst) as [client Hclient]. rewrite Hclient.
  destruct (send_message client text (customer_info st1) w1) as [response w2].
  split; [exact Hside|done].
Qed.


(** X18: unless Clear is pressed, a run of the script only appends to the
    transcript: the messages before the run are a prefix of the messages
    after it, and at most two are added. *)
Theorem transcript_append_only (ui : Widgets) (stored : option SessionState) w :
  button_clear ui = false ->
  let '(ctl, st', w') := main ui stored w in
  exists added,
    messages st' = messages (init_session_state stored) ++ added /\
    (length added <= 2)%nat.
Proof.
  intros Hclear. unfold main.
  pose proof (sidebar_keeps_messages ui (init_session_state stored) w) as Hside.
  destruct (sidebar ui (init_session_state stored) w) as [st1 w1].
  cbn [fst] in Hside. rewrite Hclear, <- Hside.
  unfold chat_flow. destruct (chat_input ui) as [text|].
  2:{ exists []. rewrite app_nil_r. split; [done|cbn; lia]. }
  destruct (String.eqb text "").
  { exists []. rewrite app_nil_r. split; [done|cbn; lia]. }
  cbn [set_messages api_status api_client customer_info messages].
  destruct (api_status st1).
  2:{ exists [user_message text w1]. split; [done|cbn; lia]. }
  destruct (api_client st1) as [client|].
  2:{ exists [user_message text w1]. split; [done|cbn; lia]. }
  destruct (send_message client text (customer_info st1) w1) as [response w2].
  exists [user_message text w1;
          {| role := "assistant"; content := response_content response;
             timestamp := strftime_now w2 |}].
  cbn [set_messages messages]. rewrite <- app_assoc. split; [done|cbn; lia].
Qed.

(** X19: the client, and with it the sender id and the base URL, lives
    as long as the URL field is left alone: a run in which the field equals
    the stored URL keeps [api_client] and [api_url], whatever buttons are
    pressed and whatever is typed in the chat input. *)
Theorem client_kept_while_url_unchanged (ui : Widgets)
    (stored : option SessionState) w :
  text_input_api_url ui = api_url (init_session_state stored) ->
  let '(ctl, st', w') := main ui stored w in
  api_client st' = api_client (init_session_state stored) /\
  api_url st' = api_url (init_session_state stored).
Proof.
  intros Hurl. unfold main.
  assert (Hside : api_client (sidebar ui (init_session_state stored) w).1
                    = api_client (init_session_state stored) /\
                  api_url (sidebar ui (init_session_state stored) w).1
                    = api_url (init_session_state stored)).
  { unfold sidebar. rewrite Hurl, String.eqb_refl. cbn [negb].
    destruct (button_test ui); [|done].
    destruct (api_client (init_session_state stored)) as [client|] eqn:Hc;
      [|state_fields; by rewrite ?Hc].
    destruct (test_connection client w). state_fields. by rewrite ?Hc. }
  destruct (sidebar ui (init_session_state stored) w) as [st1 w1].
  cbn [fst] in Hside. destruct Hside as [<- <-].
  destruct (button_clear ui); [done|].
  pose proof (chat_flow_frame (chat_input ui) st1 w1) as Hframe.
  destruct (chat_flow (chat_input ui) st1 w1) as [[ctl st'] w'].
  by destruct Hframe as (_ & -> & -> & _).
Qed.
End ScriptFacts.

(** ** The further properties at concrete inputs *)

Lemma unserialisable_customer_info_sends_nothing_witness :
  let E := unserialisable_env always_times_out in
  @send_message E sample_client "hello" tt []
  = ({[ "error"%string :=
        PyStr "Error: Object of type set is not JSON serializable" ]}, []).
Proof.
  intros E.
  exact (@unserialisable_customer_info_sends_nothing E sample_client "hello" tt []
           "Object of type set is not JSON serializable" eq_refl).
Defined.

Lemma non_object_body_is_an_error_witness :
  let r := {| status_code := 200; json := Returns (PyList [PyStr "result"]) |} in
  let E := sample_env (always_answers r) in
  exists msg,
    @send_message E sample_client "hello" tt []
    = ({[ "error"%string := PyStr msg ]}, [send_get sample_client "hello" "{}"]).
Proof.
  intros r E.
  exact (@non_object_body_is_an_error E sample_client "hello" tt "{}" [] r
           (PyList [PyStr "result"]) eq_refl eq_refl eq_refl eq_refl eq_refl).
Defined.

Lemma probe_and_send_disagree_on_status_witness :
  let r := {| status_code := 204;
              json := Returns (PyDict [("result"%string, PyStr "done")]) |} in
  let E := sample_env (always_answers r) in
  (@test_connection E sample_client []).1 = false /\
  (@send_message E sample_client "hello" tt []).1
    = {[ "response"%string := PyStr "done" ]}.
Proof.
  intros r E.
  apply (@probe_and_send_disagree_on_status E sample_client "hello" tt "{}" [] r
           [("result"%string, PyStr "done")] (PyStr "done"));
    try reflexivity; cbn; lia.
Defined.

Lemma answer_after_mixed_failures_witness :
  let bad := {| status_code := 502; json := Returns PyNone |} in
  let r := ok_response (PyStr "hi there") in
  let E := sample_env (mixed_then bad r) in
  let g := send_get sample_client "hello" "{}" in
  @send_message E sample_client "hello" tt []
  = ({[ "response"%string := PyStr "hi there" ]}, [g; Sleep 1; g; Sleep 1; g]).
Proof.
  intros bad r E g.
  apply (@answer_after_mixed_failures E sample_client "hello" tt "{}" [] 2 r
           [("result"%string, PyStr "hi there")]); try reflexivity; [lia|].
  intros i Hi. destruct i as [|[|i]]; [| |lia].
  - left. by exists "connection refused"%string.
  - right. by exists bad.
Defined.

Lemma response_comes_from_server_witness :
  let r := ok_response (PyStr "hi there") in
  let E := sample_env (fails_then 1 r) in
  exists (k : nat) r' items,
    (k < 3)%nat /\ @network E (gets [] + k) = GetReturns r' /\
    ~ (400 <= status_code r' < 600) /\
    json r' = Returns (PyDict items) /\
    dict_get "result" items = Some (PyStr "hi there").
Proof.
  intros r E.
  exact (@response_comes_from_server E sample_client "hello" tt []
           (PyStr "hi there") eq_refl).
Defined.

Lemma send_success_appends_reply_witness :
  let E := sample_env (always_answers (ok_response (PyStr "hi there"))) in
  let st := sample_session E true in
  exists st',
    (@chat_flow E (Some "hello"%string) st []).1 = (Rerun, st') /\
    map (fun m => (role m, content m)) (messages st')
      = [("user"%string, PyStr "hello"); ("assistant"%string, PyStr "hi there")].
Proof.
  intros E st.
  destruct (@send_success_appends_reply E "hello"%string st [] sample_client
              (@send_message E sample_client "hello" tt []).1
              (@send_message E sample_client "hello" tt []).2
              (PyStr "hi there")
              ltac:(discriminate) eq_refl eq_refl eq_refl eq_refl)
    as (st' & Hflow & Hmessages).
  exists st'. rewrite Hflow, Hmessages. split; reflexivity.
Defined.

Lemma sidebar_without_probe_witness :
  let E := sample_env always_times_out in
  let st := sample_session E true in
  let ui := mkWidgets "" false false None in
  (@sidebar E ui st []).2 = [] /\
  api_status (@sidebar E ui st []).1 = true /\
  api_client (@sidebar E ui st []).1 = Some sample_client /\
  api_url (@sidebar E ui st []).1 = ""%string.
Proof.
  intros E st ui.
  pose proof (@sidebar_without_probe E ui st [] (or_intror eq_refl)
                (or_introl eq_refl)) as Hside.
  destruct (@sidebar E ui st []) as [st' w'].
  destruct Hside as (Hw & Hurl & Hst & Hcl & _). cbn [fst snd].
  rewrite Hw, Hurl, Hst, Hcl. repeat split.
Defined.

Lemma url_change_probes_new_client_witness :
  let E := sample_env (always_answers (ok_response (PyStr "pong"))) in
  let st := sample_session E false in
  let ui := mkWidgets "https://example.org/api//" false false None in
  api_status (@sidebar E ui st []).1 = true /\
  api_client (@sidebar E ui st []).1
    = Some {| base_url := "https://example.org/api";
              sender_id := "123e4567-e89b-42d3-a456-426614174000" |}.
Proof.
  intros E st ui.
  pose proof (@url_change_probes_new_client E ui st []
                ltac:(discriminate) ltac:(discriminate) eq_refl) as Hside.
  destruct (@sidebar E ui st []) as [st' w'].
  destruct Hside as (_ & Hcl & _ & Hstatus & _). cbn [fst snd].
  rewrite Hcl. split; [|reflexivity].
  apply (Hstatus 0%nat (ok_response (PyStr "pong")));
    [lia|intros i Hi; lia|reflexivity|reflexivity].
Defined.

Lemma test_button_sets_status_witness :
  let E := sample_env always_times_out in
  let ui := mkWidgets "http://localhost:8000/" true false None in
  api_status (@sidebar E ui (sample_session E true) []).1 = false.
Proof.
  intros E ui.
  pose proof (@test_button_sets_status E ui (sample_session E true) []
                sample_client eq_refl eq_refl eq_refl) as Hside.
  destruct (@sidebar E ui (sample_session E true) []) as [st' w'].
  destruct Hside as (_ & _ & _ & _ & Hfail). cbn [fst].
  apply Hfail. intros i Hi. by exists "timed out"%string.
Defined.

Lemma connected_session_holds_client_witness :
  let E := sample_env always_times_out in
  let ui := mkWidgets "http://localhost:8000/" false false (Some "hello"%string) in
  is_Some (api_client (@main E ui (Some (sample_session E true)) []).1.2).
Proof.
  intros E ui.
  assert (Hinv : forall st, Some (sample_session E true) = Some st ->
            @connected_has_client E st).
  { intros st [= <-] _. by exists sample_client. }
  pose proof (@connected_session_holds_client E ui
                (Some (sample_session E true)) [] Hinv) as Hmain.
  destruct (@main E ui (Some (sample_session E true)) []) as [[ctl st'] w'] eqn:Hrun.
  assert (Hst : api_status st' = true).
  { change st' with (ctl, st', w').1.2. by rewrite <- Hrun. }
  exact (proj1 Hmain Hst).
Defined.


Lemma transcript_append_only_witness :
  let E := sample_env (always_answers (ok_response (PyStr "hi there"))) in
  let ui := mkWidgets "http://localhost:8000/" false false (Some "hello"%string) in
  let st := @set_messages E [@user_message E "earlier" []] (sample_session E true) in
  exists added,
    messages (@main E ui (Some st) []).1.2 = [@user_message E "earlier" []] ++ added /\
    (length added <= 2)%nat.
Proof.
  intros E ui st.
  pose proof (@transcript_append_only E ui (Some st) [] eq_refl) as Hmain.
  destruct (@main E ui (Some st) []) as [[ctl st'] w'].
  exact Hmain.
Defined.

Lemma client_kept_while_url_unchanged_witness :
  let E := sample_env always_times_out in
  let ui := mkWidgets "http://localhost:8000/" true false (Some "hello"%string) in
  api_client (@main E ui (Some (sample_session E true)) []).1.2 = Some sample_client.
Proof.
  intros E ui.
  pose proof (@client_kept_while_url_unchanged E ui (Some (sample_session E true)) []
                eq_refl) as Hmain.
  destruct (@main E ui (Some (sample_session E true)) []) as [[ctl st'] w'].
  exact (proj1 Hmain).
Defined.
